(** * Gauss TypeScript SDK: backend selection, provider handles and the tool bridge

    A shallow embedding of [packages/gauss/src]: [types.ts], [backend.ts],
    [provider.ts] and [agent.ts].  Host code is embedded as state-passing
    functions over an explicit world (the module variable [_backend], the
    heap of [Provider] objects, and logs of every call that leaves the host
    code); exceptions and rejected promises are the [Throw] case of
    [result].  The native modules and the host tool implementations are
    external: they appear as oracles that the embedded code calls.

    The embedding is sequential: an [await] is the point where the awaited
    outcome becomes available, and calls do not overlap.  A host tool
    implementation is a function of its arguments; it does not call back
    into the SDK. *)

From Stdlib Require Import Ascii String List Bool ZArith.
From stdpp Require Import base option list gmap strings pretty.
Import ListNotations.

#[local] Open Scope string_scope.
#[local] Open Scope list_scope.
#[local] Set Warnings "-register-all,-abstract-large-number".

(** ** Host values

    Values of type [any]/[unknown] that cross the boundary.  A number is
    carried as its text, the one Number::toString gives it ("1", "0.5",
    "1e+21", "Infinity"): the SDK never computes with numbers, it only
    forwards them.  A string is carried as the bytes of its UTF-8 form, a
    lone surrogate as the three bytes it would take.  The properties of an
    object are listed in property order: array indices ascending, then the
    other keys as inserted.  Functions, symbols and cyclic objects are
    outside this fragment. *)

Inductive JsVal : Type :=
| JUndefined
| JNull
| JBool (b : bool)
| JNum (numeral : string)
| JStr (s : string)
| JArr (items : list JsVal)
| JObj (props : list (string * JsVal)).

(** What a [throw] or a rejected promise carries. *)
Inductive Exn : Type :=
| Error (message : string)   (* new Error(message) *)
| SyntaxError                (* raised by JSON.parse *)
| TypeError                  (* property read on null or undefined *)
| Reason (v : JsVal).        (* anything raised by external code *)

Inductive result (A : Type) : Type :=
| Ok (a : A)
| Throw (e : Exn).
Arguments Ok {A} a.
Arguments Throw {A} e.

Definition dquote : ascii := "034"%char.
Definition backslash : ascii := "092"%char.

Definition is_nullish (v : JsVal) : bool :=
  match v with JUndefined | JNull => true | _ => false end.

(** [a ?? b] *)
Definition nullish_or (a b : JsVal) : JsVal := if is_nullish a then b else a.
Infix "??" := nullish_or (at level 45, left associativity).

(** The abstract operation ToString, as used by template literals. *)
Fixpoint ToString (v : JsVal) : string :=
  match v with
  | JUndefined => "undefined"
  | JNull => "null"
  | JBool true => "true"
  | JBool false => "false"
  | JNum n => n
  | JStr s => s
  | JArr items =>
      String.concat ","
        (map (fun x => if is_nullish x then "" else ToString x) items)
  | JObj _ => "[object Object]"
  end.

(** Own-property read [o.k]; valid for keys that name no built-in member
    of strings, arrays, numbers or booleans (all keys read by the SDK). *)
Definition lookup_prop (k : string) (props : list (string * JsVal)) : JsVal :=
  match find (fun kv => String.eqb (fst kv) k) props with
  | Some kv => snd kv
  | None => JUndefined
  end.

Definition get_prop (v : JsVal) (k : string) : result JsVal :=
  match v with
  | JObj props => Ok (lookup_prop k props)
  | JUndefined | JNull => Throw TypeError
  | _ => Ok JUndefined
  end.

Definition has_prop (v : JsVal) (k : string) : bool :=
  match v with
  | JObj props => existsb (fun kv => String.eqb (fst kv) k) props
  | _ => false
  end.

(** ** JSON.stringify *)

Definition hex_digit (n : nat) : ascii :=
  nth n (list_ascii_of_string "0123456789abcdef") "0"%char.

Definition json_escape (c : ascii) : string :=
  let n := nat_of_ascii c in
  if Ascii.eqb c dquote then String backslash (String dquote "")
  else if Ascii.eqb c backslash then String backslash (String backslash "")
  else if Nat.eqb n 8 then String backslash "b"
  else if Nat.eqb n 9 then String backslash "t"
  else if Nat.eqb n 10 then String backslash "n"
  else if Nat.eqb n 12 then String backslash "f"
  else if Nat.eqb n 13 then String backslash "r"
  else if Nat.ltb n 32 then
    String backslash ("u00" +:+ String (hex_digit (n / 16)) (String (hex_digit (n mod 16)) ""))
  else String c "".

(** The code unit of a lone surrogate carried as three bytes. *)
Definition lone_surrogate (c1 c2 c3 : ascii) : option nat :=
  let n1 := nat_of_ascii c1 in
  let n2 := nat_of_ascii c2 in
  let n3 := nat_of_ascii c3 in
  if Nat.eqb n1 237 && Nat.leb 160 n2 && Nat.leb n2 191 && Nat.leb 128 n3 && Nat.leb n3 191
  then Some (53248 + (n2 - 128) * 64 + (n3 - 128))
  else None.

Definition hex4_text (n : nat) : string :=
  String (hex_digit (n / 4096))
    (String (hex_digit ((n / 256) mod 16))
       (String (hex_digit ((n / 16) mod 16))
          (String (hex_digit (n mod 16)) ""))).

(** A lone surrogate is written as its escape; every other character
    through [json_escape]. *)
Fixpoint json_escape_all (s : string) : string :=
  match s with
  | EmptyString => ""
  | String c r =>
      match r with
      | String c2 (String c3 r') =>
          match lone_surrogate c c2 c3 with
          | Some n => String backslash ("u" +:+ hex4_text n) +:+ json_escape_all r'
          | None => json_escape c +:+ json_escape_all r
          end
      | _ => json_escape c +:+ json_escape_all r
      end
  end.

Definition QuoteJSONString (s : string) : string :=
  String dquote (json_escape_all s +:+ String dquote "").

(** Whether the text of a number is that of a finite one. *)
Definition is_finite_text (n : string) : bool :=
  negb (String.eqb n "Infinity" || String.eqb n "-Infinity" || String.eqb n "NaN").

(** [SerializeJSONProperty v] is [None] where JSON.stringify yields
    [undefined]: a property holding [undefined] is left out of its object,
    an array slot holding it is written [null]. *)
Fixpoint SerializeJSONProperty (v : JsVal) : option string :=
  match v with
  | JUndefined => None
  | JNull => Some "null"
  | JBool true => Some "true"
  | JBool false => Some "false"
  | JNum n => Some (if is_finite_text n then n else "null")
  | JStr s => Some (QuoteJSONString s)
  | JArr items =>
      Some ("[" +:+
            String.concat ","
              (map (fun x => match SerializeJSONProperty x with
                             | Some t => t
                             | None => "null"
                             end) items) +:+ "]")
  | JObj props =>
      Some ("{" +:+
            String.concat ","
              (flat_map (fun kv => match SerializeJSONProperty (snd kv) with
                                   | Some t => [QuoteJSONString (fst kv) +:+ ":" +:+ t]
                                   | None => []
                                   end) props) +:+ "}")
  end.

(** [JSON.stringify(v)] as a host value: a string, or [undefined]. *)
Definition JSON_stringify (v : JsVal) : JsVal :=
  match SerializeJSONProperty v with
  | Some t => JStr t
  | None => JUndefined
  end.

(** The properties that [JSON.stringify] writes: those not [undefined]. *)
Definition is_undefined (v : JsVal) : bool :=
  match v with JUndefined => true | _ => false end.

Definition written_props (v : JsVal) : list (string * JsVal) :=
  match v with
  | JObj props => List.filter (fun kv => negb (is_undefined (snd kv))) props
  | _ => []
  end.

(** ** Numbers: from a numeral to the double it denotes, and back *)

(** A finite positive double [mant * 2^expo], or what rounding made of the
    numeral. *)
Inductive Double : Type :=
| DZero
| DFinite (mant expo : Z)
| DInfinity.

(** [num / den], both positive, scaled by [2^(-expo)] and cut to an integer,
    with what is left over. *)
Definition scaled (num den expo : Z) : Z * Z * Z :=
  let n := (num * 2 ^ Z.max 0 (- expo))%Z in
  let d := (den * 2 ^ Z.max 0 expo)%Z in
  ((n / d)%Z, (n mod d)%Z, d).

(** The binary exponent at which the quotient has 53 bits (or the least
    exponent of a double). *)
Definition binary_exponent (num den : Z) : Z :=
  let guess := (Z.log2 num - Z.log2 den - 52)%Z in
  let fits (expo : Z) :=
    let '(q, _, _) := scaled num den expo in (q <? 2 ^ 53)%Z in
  let expo :=
    if fits (guess - 1)%Z then (guess - 1)%Z
    else if fits guess then guess
    else (guess + 1)%Z in
  Z.max expo (-1074).

(** Round to nearest, ties to even. *)
Definition nearest_double (num den : Z) : Double :=
  if (num =? 0)%Z then DZero else
  let expo := binary_exponent num den in
  let '(q, r, d) := scaled num den expo in
  let up := (d <? 2 * r)%Z || ((d =? 2 * r)%Z && Z.odd q) in
  let m := if up then (q + 1)%Z else q in
  let '(m, expo) := if (m =? 2 ^ 53)%Z then ((2 ^ 52)%Z, (expo + 1)%Z) else (m, expo) in
  if (m =? 0)%Z then DZero
  else if (971 <? expo)%Z then DInfinity
  else DFinite m expo.

Definition Double_eqb (a b : Double) : bool :=
  match a, b with
  | DZero, DZero => true
  | DInfinity, DInfinity => true
  | DFinite m e, DFinite m' e' => (m =? m')%Z && (e =? e')%Z
  | _, _ => false
  end.

(** [digits * 10^scale] as a fraction. *)
Definition decimal_fraction (digits scale : Z) : Z * Z :=
  if (0 <=? scale)%Z then ((digits * 10 ^ scale)%Z, 1%Z)
  else (digits, (10 ^ (- scale))%Z).

Definition double_of_decimal (digits scale : Z) : Double :=
  let '(num, den) := decimal_fraction digits scale in nearest_double num den.

(** The position of the decimal point: [10^(point-1) <= num/den < 10^point]. *)
Definition decimal_point (num den : Z) : Z :=
  let guess := ((Z.log2 num - Z.log2 den) * 30103 / 100000)%Z in
  let below (p : Z) :=
    (* num/den < 10^p *)
    let '(n, d) := decimal_fraction 1 p in (num * d <? n * den)%Z in
  if below (guess - 1)%Z then (guess - 1)%Z
  else if below guess then guess
  else if below (guess + 1)%Z then (guess + 1)%Z
  else (guess + 2)%Z.

(** The [k]-digit decimals next to [num/den], below and above, that denote
    the double [v]; the closer one first. *)
Definition shortest_with (k : Z) (v : Double) (num den point : Z) : option (Z * Z) :=
  let scale := (point - k)%Z in
  let '(sn, sd) := decimal_fraction 1 scale in
  (* num/den / (sn/sd) *)
  let n := (num * sd)%Z in
  let d := (den * sn)%Z in
  let low := (n / d)%Z in
  let high := (low + 1)%Z in
  let rem := (n mod d)%Z in
  let ok (c : Z) := (0 <? c)%Z && Double_eqb (double_of_decimal c scale) v in
  let low_first := (2 * rem <? d)%Z || ((2 * rem =? d)%Z && Z.even low) in
  let '(first, second) := if low_first then (low, high) else (high, low) in
  if ok first then Some (first, scale)
  else if ok second then Some (second, scale)
  else None.

Fixpoint shortest_from (fuel : nat) (k : Z) (v : Double) (num den point : Z) : Z * Z :=
  match fuel with
  | O => (0%Z, 0%Z)
  | S f =>
      match shortest_with k v num den point with
      | Some (digits, scale) =>
          (* the decimal above a run of nines: one digit again *)
          if (digits mod 10 =? 0)%Z then ((digits / 10)%Z, (scale + 1)%Z)
          else (digits, scale)
      | None => shortest_from f (k + 1)%Z v num den point
      end
  end.

Fixpoint zeros (n : nat) : string :=
  match n with O => "" | S n' => String "0" (zeros n') end.

Fixpoint take_chars (n : nat) (s : string) : string :=
  match n, s with
  | S n', String c r => String c (take_chars n' r)
  | _, _ => ""
  end.

Fixpoint drop_chars (n : nat) (s : string) : string :=
  match n, s with
  | S n', String _ r => drop_chars n' r
  | _, _ => s
  end.

(** Number::toString of a positive finite double. *)
Definition Number_toString_finite (mant expo : Z) : string :=
  let '(num, den) :=
    if (0 <=? expo)%Z then ((mant * 2 ^ expo)%Z, 1%Z) else (mant, (2 ^ (- expo))%Z) in
  let point := decimal_point num den in
  let '(digits, scale) := shortest_from 17 1 (DFinite mant expo) num den point in
  let ds := pretty digits in
  let k := Z.of_nat (String.length ds) in
  let n := (scale + k)%Z in
  if (k <=? n)%Z && (n <=? 21)%Z then ds +:+ zeros (Z.to_nat (n - k))
  else if (0 <? n)%Z && (n <=? 21)%Z then
    take_chars (Z.to_nat n) ds +:+ "." +:+ drop_chars (Z.to_nat n) ds
  else if (-6 <? n)%Z && (n <=? 0)%Z then "0." +:+ zeros (Z.to_nat (- n)) +:+ ds
  else
    let e := (n - 1)%Z in
    let sign := if (0 <=? e)%Z then "+" else "-" in
    let head :=
      if (k =? 1)%Z then ds
      else take_chars 1 ds +:+ "." +:+ drop_chars 1 ds in
    head +:+ "e" +:+ sign +:+ pretty (Z.abs e).

Fixpoint digits_value (s : string) (acc : Z) : Z :=
  match s with
  | EmptyString => acc
  | String c r => digits_value r (acc * 10 + Z.of_nat (nat_of_ascii c - 48))%Z
  end.

(** The text of the number that JSON.parse reads from a numeral given in
    its parts: Number::toString of the nearest double. *)
Definition canonical_numeral (negative : bool) (int frac : string)
    (exp_negative : bool) (exp : string) : string :=
  let digits := digits_value (int +:+ frac) 0 in
  let e := digits_value exp 0 in
  let scale := ((if exp_negative then - e else e) - Z.of_nat (String.length frac))%Z in
  let magnitude := (scale + Z.of_nat (String.length (pretty digits)))%Z in
  if (digits =? 0)%Z || (magnitude <=? -324)%Z then "0"
  else if (310 <=? magnitude)%Z then (if negative then "-Infinity" else "Infinity")
  else
  match double_of_decimal digits scale with
  | DZero => "0"
  | DInfinity => if negative then "-Infinity" else "Infinity"
  | DFinite mant expo =>
      (if negative then "-" else "") +:+ Number_toString_finite mant expo
  end.

(** ** JSON.parse

    A recursive-descent reader of the JSON grammar.  [fuel] bounds the
    number of nested or successive values; [JSON_parse] supplies more than
    any text can use.  A numeral is read as the double nearest to it. *)

Definition is_ws (c : ascii) : bool :=
  let n := nat_of_ascii c in
  Nat.eqb n 32 || Nat.eqb n 9 || Nat.eqb n 10 || Nat.eqb n 13.

Definition is_digit (c : ascii) : bool :=
  let n := nat_of_ascii c in Nat.leb 48 n && Nat.leb n 57.

Fixpoint skip_ws (s : string) : string :=
  match s with
  | String c r => if is_ws c then skip_ws r else s
  | EmptyString => s
  end.

Fixpoint take_digits (s : string) : string * string :=
  match s with
  | String c r =>
      if is_digit c then let '(d, r') := take_digits r in (String c d, r')
      else ("", s)
  | EmptyString => ("", s)
  end.

Definition hex_value (c : ascii) : option nat :=
  let n := nat_of_ascii c in
  if Nat.leb 48 n && Nat.leb n 57 then Some (n - 48)
  else if Nat.leb 97 n && Nat.leb n 102 then Some (n - 87)
  else if Nat.leb 65 n && Nat.leb n 70 then Some (n - 55)
  else None.

Definition hex4 (a b c d : ascii) : option nat :=
  match hex_value a, hex_value b, hex_value c, hex_value d with
  | Some x, Some y, Some z, Some w => Some (((x * 16 + y) * 16 + z) * 16 + w)
  | _, _, _, _ => None
  end.

Definition utf8_of_code_unit (n : nat) : string :=
  if Nat.ltb n 128 then String (ascii_of_nat n) ""
  else if Nat.ltb n 2048 then
    String (ascii_of_nat (192 + n / 64)) (String (ascii_of_nat (128 + n mod 64)) "")
  else
    String (ascii_of_nat (224 + n / 4096))
      (String (ascii_of_nat (128 + (n / 64) mod 64))
         (String (ascii_of_nat (128 + n mod 64)) "")).

(** The character that a high and a low surrogate make together. *)
Definition utf8_of_surrogate_pair (high low : nat) : string :=
  let n := 65536 + (high - 55296) * 1024 + (low - 56320) in
  String (ascii_of_nat (240 + n / 262144))
    (String (ascii_of_nat (128 + (n / 4096) mod 64))
       (String (ascii_of_nat (128 + (n / 64) mod 64))
          (String (ascii_of_nat (128 + n mod 64)) ""))).

Definition is_high_surrogate (n : nat) : bool := Nat.leb 55296 n && Nat.leb n 56319.
Definition is_low_surrogate (n : nat) : bool := Nat.leb 56320 n && Nat.leb n 57343.

Definition simple_escape (e : ascii) : option ascii :=
  if Ascii.eqb e dquote then Some dquote
  else if Ascii.eqb e backslash then Some backslash
  else if Ascii.eqb e "/" then Some "/"%char
  else if Ascii.eqb e "b" then Some (ascii_of_nat 8)
  else if Ascii.eqb e "f" then Some (ascii_of_nat 12)
  else if Ascii.eqb e "n" then Some (ascii_of_nat 10)
  else if Ascii.eqb e "r" then Some (ascii_of_nat 13)
  else if Ascii.eqb e "t" then Some (ascii_of_nat 9)
  else None.

Definition prepend (d : string) (o : option (string * string)) : option (string * string) :=
  match o with
  | Some (t, r) => Some (d +:+ t, r)
  | None => None
  end.

(** The characters of a string literal after its opening quote. *)
Fixpoint parse_string_body (s : string) : option (string * string) :=
  match s with
  | EmptyString => None
  | String c r =>
      if Ascii.eqb c dquote then Some ("", r)
      else if Ascii.eqb c backslash then
        match r with
        | String e r1 =>
            if Ascii.eqb e "u" then
              match r1 with
              | String h1 (String h2 (String h3 (String h4 r2))) =>
                  match hex4 h1 h2 h3 h4 with
                  | Some n =>
                      let alone := prepend (utf8_of_code_unit n) (parse_string_body r2) in
                      (* an escaped high surrogate joins the escaped low one after it *)
                      match r2 with
                      | String b (String u (String l1 (String l2 (String l3 (String l4 r3))))) =>
                          match hex4 l1 l2 l3 l4 with
                          | Some m =>
                              if Ascii.eqb b backslash && Ascii.eqb u "u" &&
                                 is_high_surrogate n && is_low_surrogate m
                              then prepend (utf8_of_surrogate_pair n m) (parse_string_body r3)
                              else alone
                          | None => alone
                          end
                      | _ => alone
                      end
                  | None => None
                  end
              | _ => None
              end
            else
              match simple_escape e with
              | Some ch => prepend (String ch "") (parse_string_body r1)
              | None => None
              end
        | EmptyString => None
        end
      else if Nat.ltb (nat_of_ascii c) 32 then None
      else prepend (String c "") (parse_string_body r)
  end.

(** [-? int frac? exp?]: the text of the double the numeral denotes. *)
Definition parse_number (s : string) : option (string * string) :=
  let '(negative, s1) :=
    match s with
    | String "-" r => (true, r)
    | _ => (false, s)
    end in
  let '(int, s2) := take_digits s1 in
  let int_ok :=
    match int with
    | EmptyString => false
    | String "0" (String _ _) => false
    | _ => true
    end in
  if negb int_ok then None else
  let frac :=
    match s2 with
    | String "." r =>
        let '(d, r') := take_digits r in
        match d with
        | EmptyString => None
        | _ => Some (d, r')
        end
    | _ => Some ("", s2)
    end in
  match frac with
  | None => None
  | Some (fr, s3) =>
      let expo :=
        match s3 with
        | String e r =>
            if Ascii.eqb e "e" || Ascii.eqb e "E" then
              let '(exp_negative, r1) :=
                match r with
                | String "+" r' => (false, r')
                | String "-" r' => (true, r')
                | _ => (false, r)
                end in
              let '(d, r2) := take_digits r1 in
              match d with
              | EmptyString => None
              | _ => Some (exp_negative, d, r2)
              end
            else Some (false, "", s3)
        | EmptyString => Some (false, "", s3)
        end in
      match expo with
      | None => None
      | Some (exp_negative, ex, s4) =>
          Some (canonical_numeral negative int fr exp_negative ex, s4)
      end
  end.

Fixpoint strip_prefix (p s : string) : option string :=
  match p, s with
  | EmptyString, _ => Some s
  | String a p', String b s' => if Ascii.eqb a b then strip_prefix p' s' else None
  | String _ _, EmptyString => None
  end.

(** A string literal of a JSON text: [s] between double quotes. *)
Definition quoted (s : string) : string := String dquote (s +:+ String dquote "").

(** An array index: the canonical text of an integer below 2^32 - 1. *)
Definition array_index (k : string) : option Z :=
  match k with
  | EmptyString => None
  | String "0" EmptyString => Some 0%Z
  | String "0" _ => None
  | _ =>
      if forallb is_digit (list_ascii_of_string k) && Nat.leb (String.length k) 10 then
        let n := digits_value k 0 in
        if Z.ltb n 4294967295 then Some n else None
      else None
  end.

Fixpoint replace_prop (k : string) (v : JsVal) (props : list (string * JsVal))
  : list (string * JsVal) :=
  match props with
  | [] => []
  | (k', v') :: rest =>
      if String.eqb k' k then (k', v) :: rest else (k', v') :: replace_prop k v rest
  end.

(** A new array index goes before the first key that is a larger index or
    no index at all. *)
Fixpoint insert_index (i : Z) (k : string) (v : JsVal) (props : list (string * JsVal))
  : list (string * JsVal) :=
  match props with
  | [] => [(k, v)]
  | (k', v') :: rest =>
      match array_index k' with
      | Some j => if Z.ltb j i then (k', v') :: insert_index i k v rest else (k, v) :: props
      | None => (k, v) :: props
      end
  end.

(** [obj\[k\] = v] on a plain object: a key that is present keeps its position
    and takes the new value; a new array index is placed among the
    indices, in ascending order; any other new key goes last. *)
Definition set_prop (k : string) (v : JsVal) (props : list (string * JsVal))
  : list (string * JsVal) :=
  if existsb (fun kv => String.eqb (fst kv) k) props then replace_prop k v props
  else
    match array_index k with
    | Some i => insert_index i k v props
    | None => props ++ [(k, v)]
    end.

Fixpoint parse_value (fuel : nat) (s : string) {struct fuel} : option (JsVal * string) :=
  match fuel with
  | O => None
  | S f =>
      match skip_ws s with
      | EmptyString => None
      | String c r =>
          if Ascii.eqb c "{" then
            match skip_ws r with
            | String "}" r' => Some (JObj [], r')
            | _ =>
                match parse_members f [] r with
                | Some (ps, r') => Some (JObj ps, r')
                | None => None
                end
            end
          else if Ascii.eqb c "[" then
            match skip_ws r with
            | String "]" r' => Some (JArr [], r')
            | _ =>
                match parse_elements f [] r with
                | Some (vs, r') => Some (JArr vs, r')
                | None => None
                end
            end
          else if Ascii.eqb c dquote then
            match parse_string_body r with
            | Some (t, r') => Some (JStr t, r')
            | None => None
            end
          else if Ascii.eqb c "t" then
            match strip_prefix "rue" r with
            | Some r' => Some (JBool true, r')
            | None => None
            end
          else if Ascii.eqb c "f" then
            match strip_prefix "alse" r with
            | Some r' => Some (JBool false, r')
            | None => None
            end
          else if Ascii.eqb c "n" then
            match strip_prefix "ull" r with
            | Some r' => Some (JNull, r')
            | None => None
            end
          else
            match parse_number (String c r) with
            | Some (n, r') => Some (JNum n, r')
            | None => None
            end
      end
  end
with parse_elements (fuel : nat) (acc : list JsVal) (s : string) {struct fuel}
  : option (list JsVal * string) :=
  match fuel with
  | O => None
  | S f =>
      match parse_value f s with
      | Some (v, r) =>
          match skip_ws r with
          | String c r' =>
              if Ascii.eqb c "," then parse_elements f (acc ++ [v]) r'
              else if Ascii.eqb c "]" then Some (acc ++ [v], r')
              else None
          | EmptyString => None
          end
      | None => None
      end
  end
with parse_members (fuel : nat) (acc : list (string * JsVal)) (s : string) {struct fuel}
  : option (list (string * JsVal) * string) :=
  match fuel with
  | O => None
  | S f =>
      match skip_ws s with
      | String q r =>
          if Ascii.eqb q dquote then
            match parse_string_body r with
            | Some (k, r1) =>
                match skip_ws r1 with
                | String ":" r2 =>
                    match parse_value f r2 with
                    | Some (v, r3) =>
                        match skip_ws r3 with
                        | String c r4 =>
                            if Ascii.eqb c "," then parse_members f (set_prop k v acc) r4
                            else if Ascii.eqb c "}" then Some (set_prop k v acc, r4)
                            else None
                        | EmptyString => None
                        end
                    | None => None
                    end
                | _ => None
                end
            | None => None
            end
          else None
      | EmptyString => None
      end
  end.

Definition JSON_parse (text : string) : result JsVal :=
  match parse_value (2 * String.length text + 2) text with
  | Some (v, rest) =>
      match skip_ws rest with
      | EmptyString => Ok v
      | String _ _ => Throw SyntaxError
      end
  | None => Throw SyntaxError
  end.

(** ** Shared data shapes ([types.ts]) *)

(** A [number] is carried by its numeral. *)
Definition number : Type := string.

Definition opt_str (o : option string) : JsVal :=
  match o with Some s => JStr s | None => JUndefined end.
Definition opt_num (o : option number) : JsVal :=
  match o with Some n => JNum n | None => JUndefined end.
Definition opt_val (o : option JsVal) : JsVal :=
  match o with Some v => v | None => JUndefined end.

(** Whether the caller gave an optional field. *)
Definition present {A} (o : option A) : bool :=
  match o with Some _ => true | None => false end.

Inductive ProviderType : Type :=
| openai | anthropic | google | groq | ollama | deepseek.

Definition ProviderType_text (t : ProviderType) : string :=
  match t with
  | openai => "openai"
  | anthropic => "anthropic"
  | google => "google"
  | groq => "groq"
  | ollama => "ollama"
  | deepseek => "deepseek"
  end.

Module ProviderOptions.
Record t : Type := mk {
  apiKey : string;
  baseUrl : option string;
  timeoutMs : option number;
  maxRetries : option number;
  organization : option string
}.
End ProviderOptions.

Inductive Role : Type := system | user | assistant.

Definition Role_text (r : Role) : string :=
  match r with
  | system => "system"
  | user => "user"
  | assistant => "assistant"
  end.

(** A message is the caller's object, whatever its properties and their
    order; [mk] is the object literal [{ role, content }]. *)
Module Message.
Record t : Type := of_object { props : list (string * JsVal) }.
Definition role (m : t) : JsVal := lookup_prop "role" (props m).
Definition content (m : t) : JsVal := lookup_prop "content" (props m).
Definition mk (r : Role) (c : string) : t :=
  of_object [("role", JStr (Role_text r)); ("content", JStr c)].
End Message.

(** A host tool implementation: the value its promise resolves to, or what
    it throws or rejects with. *)
Definition HostFn : Type := JsVal -> result JsVal.

Module ToolDef.
Record t : Type := mk {
  name : string;
  description : string;
  parameters : option JsVal;
  execute : option HostFn
}.
End ToolDef.

(** [Omit<ToolDef, 'execute'>] *)
Module ToolSchema.
Record t : Type := mk {
  name : string;
  description : string;
  parameters : option JsVal
}.
End ToolSchema.

Module AgentOptions.
Record t : Type := mk {
  instructions : option string;
  maxSteps : option number;
  temperature : option number;
  topP : option number;
  maxTokens : option number;
  seed : option number;
  stopOnTool : option string;
  outputSchema : option JsVal;
  tools : option (list ToolDef.t)
}.
(** The default [{}] of the [Agent] constructor. *)
Definition empty : t := mk None None None None None None None None None.
End AgentOptions.

Module GenerateOptions.
Record t : Type := mk { temperature : option number; maxTokens : option number }.
End GenerateOptions.

(** [{ role: m.role, content: m.content }] *)
Definition message_obj (m : Message.t) : JsVal :=
  JObj [("role", Message.role m); ("content", Message.content m)].

(** A message as the value it is. *)
Definition message_value (m : Message.t) : JsVal := JObj (Message.props m).

(** ** The boundary: native modules and host tool implementations *)

Inductive ModuleKind : Type := Napi | Wasm.

Inductive BoundaryEvent : Type :=
| NativeCall (m : ModuleKind) (fn : string) (args : list JsVal)
| ToolExec (tool : string) (args : JsVal).

Definition Trace : Type := list BoundaryEvent.

(** What the engine does during one callback-capable run: it settles, or it
    hands a call envelope to the tool executor and resumes with the
    executor's outcome. *)
Inductive Engine : Type :=
| Settle (r : result JsVal)
| CallTool (callJson : string) (resume : result JsVal -> Engine).

(** A loaded native module.  Its replies may depend on everything that
    crossed the boundary before. *)
Record NativeModule : Type := {
  answer : Trace -> string -> list JsVal -> result JsVal;
  run_engine : Trace -> list JsVal -> Engine
}.

(** Code with effects: a state and a possible exception. *)
Definition M (S A : Type) : Type := S -> result A * S.

Definition ret {S A} (a : A) : M S A := fun s => (Ok a, s).
Definition throw {S A} (e : Exn) : M S A := fun s => (Throw e, s).
Definition bind {S A B} (c : M S A) (k : A -> M S B) : M S B :=
  fun s =>
    match c s with
    | (Ok a, s') => k a s'
    | (Throw e, s') => (Throw e, s')
    end.
Definition lift {S A} (r : result A) : M S A := fun s => (r, s).

Notation "'let*' x ':=' c 'in' k" := (bind c (fun x => k))
  (at level 10, x name, c at level 100, k at level 200).

(** Code that crosses the boundary: its state is the boundary trace. *)
Definition N (A : Type) : Type := M Trace A.

(** [m.fn(...args)] on a native module. *)
Definition native (kind : ModuleKind) (m : NativeModule) (fn : string) (args : list JsVal)
  : N JsVal :=
  fun tr => (answer m tr fn args, tr ++ [NativeCall kind fn args]).

(** The engine at work: every envelope it issues goes through
    [toolExecutor]; the run ends when the engine settles. *)
Fixpoint drive (e : Engine) (toolExecutor : string -> N JsVal) : N JsVal :=
  match e with
  | Settle r => lift r
  | CallTool callJson resume =>
      fun tr =>
        let '(r, tr') := toolExecutor callJson tr in
        drive (resume r) toolExecutor tr'
  end.

(** Boundary code that only adds to the trace. *)
Definition appends_only {A} (m : N A) : Prop :=
  forall tr, exists rest, snd (m tr) = tr ++ rest.

(** The host tool executions recorded in a trace. *)
Definition is_ToolExec (e : BoundaryEvent) : bool :=
  match e with ToolExec _ _ => true | NativeCall _ _ _ => false end.

Definition tool_runs (tr : Trace) : list BoundaryEvent := List.filter is_ToolExec tr.

(** ** [backend.ts]: the backend interface *)

Module Backend.
Record t : Type := mk {
  createProvider : ProviderType -> string -> ProviderOptions.t -> N JsVal;
  destroyProvider : JsVal -> N unit;
  generate : JsVal -> list Message.t -> option number -> option number -> N JsVal;
  generateWithTools :
    JsVal -> list Message.t -> list ToolSchema.t -> option number -> option number -> N JsVal;
  agentRun :
    string -> JsVal -> list ToolSchema.t -> list Message.t -> AgentOptions.t -> N JsVal;
  agentRunWithToolExecutor :
    string -> JsVal -> list ToolSchema.t -> list Message.t -> AgentOptions.t ->
    (string -> N JsVal) -> N JsVal
}.
End Backend.

(** ** [createNapiBackend]: the Direct strategy *)

Definition napi_provider_options (options : ProviderOptions.t) : JsVal :=
  JObj [("apiKey", JStr (ProviderOptions.apiKey options));
        ("baseUrl", opt_str (ProviderOptions.baseUrl options) ?? JNull);
        ("timeoutMs", opt_num (ProviderOptions.timeoutMs options) ?? JNull);
        ("maxRetries", opt_num (ProviderOptions.maxRetries options) ?? JNull);
        ("organization", opt_str (ProviderOptions.organization options) ?? JNull)].

Definition napi_tool (t : ToolSchema.t) : JsVal :=
  JObj [("name", JStr (ToolSchema.name t));
        ("description", JStr (ToolSchema.description t));
        ("parameters", opt_val (ToolSchema.parameters t) ?? JNull)].

Definition napi_agent_options (options : AgentOptions.t) : JsVal :=
  JObj [("instructions", opt_str (AgentOptions.instructions options) ?? JNull);
        ("maxSteps", opt_num (AgentOptions.maxSteps options) ?? JNull);
        ("temperature", opt_num (AgentOptions.temperature options) ?? JNull);
        ("topP", opt_num (AgentOptions.topP options) ?? JNull);
        ("maxTokens", opt_num (AgentOptions.maxTokens options) ?? JNull);
        ("seed", opt_num (AgentOptions.seed options) ?? JNull);
        ("stopOnTool", opt_str (AgentOptions.stopOnTool options) ?? JNull);
        ("outputSchema", opt_val (AgentOptions.outputSchema options) ?? JNull)].

(** What [field ?? null] comes to, by the type of the field. *)
Definition str_or_null (o : option string) : JsVal :=
  match o with Some s => JStr s | None => JNull end.
Definition num_or_null (o : option number) : JsVal :=
  match o with Some n => JNum n | None => JNull end.
Definition val_or_null (o : option JsVal) : JsVal :=
  match o with Some v => if is_nullish v then JNull else v | None => JNull end.

(** The [AgentResult] literal built from the native reply. *)
Definition napi_agent_result (reply : JsVal) : N JsVal :=
  let* text := lift (get_prop reply "text") in
  let* steps := lift (get_prop reply "steps") in
  let* inputTokens := lift (get_prop reply "inputTokens") in
  let* outputTokens := lift (get_prop reply "outputTokens") in
  let* structuredOutput := lift (get_prop reply "structuredOutput") in
  ret (JObj [("text", text);
             ("steps", steps);
             ("usage", JObj [("inputTokens", inputTokens); ("outputTokens", outputTokens)]);
             ("structuredOutput", structuredOutput ?? JUndefined)]).

Definition napi_agent_args (name : string) (providerHandle : JsVal)
    (tools : list ToolSchema.t) (messages : list Message.t) (options : AgentOptions.t)
  : list JsVal :=
  [JStr name; providerHandle; JArr (map napi_tool tools);
   JArr (map message_obj messages); napi_agent_options options].

Definition createNapiBackend (napi : NativeModule) : Backend.t :=
  {| Backend.createProvider type model options :=
       native Napi napi "createProvider"
         [JStr (ProviderType_text type); JStr model; napi_provider_options options];
     Backend.destroyProvider handle :=
       let* _ := native Napi napi "destroyProvider" [handle] in ret tt;
     Backend.generate handle messages temperature maxTokens :=
       native Napi napi "generate"
         [handle; JArr (map message_obj messages);
          opt_num temperature ?? JNull; opt_num maxTokens ?? JNull];
     Backend.agentRun name providerHandle tools messages options :=
       let* reply :=
         native Napi napi "agentRun"
           (napi_agent_args name providerHandle tools messages options) in
       napi_agent_result reply;
     Backend.generateWithTools handle messages tools temperature maxTokens :=
       native Napi napi "generateWithTools"
         [handle; JArr (map message_obj messages); JArr (map napi_tool tools);
          opt_num temperature ?? JNull; opt_num maxTokens ?? JNull];
     Backend.agentRunWithToolExecutor name providerHandle tools messages options toolExecutor :=
       let args := napi_agent_args name providerHandle tools messages options in
       let* reply :=
         (fun tr =>
            let tr1 := tr ++ [NativeCall Napi "agentRunWithToolExecutor" args] in
            drive (run_engine napi tr1 args) toolExecutor tr1) in
       napi_agent_result reply |}.

(** ** [createWasmBackend]: the Envelope strategy *)

(** The object literal that [agentRun] serializes. *)
Definition wasm_agent_options (options : AgentOptions.t) : JsVal :=
  JObj [("instructions", opt_str (AgentOptions.instructions options));
        ("maxSteps", opt_num (AgentOptions.maxSteps options));
        ("temperature", opt_num (AgentOptions.temperature options));
        ("topP", opt_num (AgentOptions.topP options));
        ("maxTokens", opt_num (AgentOptions.maxTokens options));
        ("stopOnTool", opt_str (AgentOptions.stopOnTool options));
        ("outputSchema", opt_val (AgentOptions.outputSchema options))].

(** [JSON.stringify(messages)]: the messages are written as they are. *)
Definition wasm_messages (messages : list Message.t) : JsVal :=
  JSON_stringify (JArr (map message_value messages)).

(** The own enumerable properties copied by an object spread. *)
Definition own_props (v : JsVal) : list (string * JsVal) :=
  match v with
  | JObj ps => ps
  | JArr items => imap (fun i x => (pretty i, x)) items
  | JStr s => imap (fun i c => (pretty i, JStr (String c ""))) (list_ascii_of_string s)
  | _ => []
  end.

Definition wasm_agentRun (wasm : NativeModule) (name : string) (providerHandle : JsVal)
    (_tools : list ToolSchema.t) (messages : list Message.t) (options : AgentOptions.t)
  : N JsVal :=
  let* json :=
    native Wasm wasm "agentRun"
      [JStr name; providerHandle; wasm_messages messages;
       JSON_stringify (wasm_agent_options options)] in
  lift (JSON_parse (ToString json)).

Definition createWasmBackend (wasm : NativeModule) : Backend.t :=
  {| Backend.createProvider type model options :=
       native Wasm wasm "createProvider"
         [JStr (ProviderType_text type); JStr model;
          JStr (ProviderOptions.apiKey options);
          opt_str (ProviderOptions.baseUrl options) ?? JUndefined];
     Backend.destroyProvider handle :=
       let* _ := native Wasm wasm "destroyProvider" [handle] in ret tt;
     Backend.generate handle messages temperature maxTokens :=
       let* json :=
         native Wasm wasm "generate"
           [handle; wasm_messages messages;
            opt_num temperature ?? JUndefined; opt_num maxTokens ?? JUndefined] in
       lift (JSON_parse (ToString json));
     Backend.agentRun := wasm_agentRun wasm;
     Backend.generateWithTools handle messages _tools temperature maxTokens :=
       let* json :=
         native Wasm wasm "generate"
           [handle; wasm_messages messages;
            opt_num temperature ?? JUndefined; opt_num maxTokens ?? JUndefined] in
       let* parsed := lift (JSON_parse (ToString json)) in
       ret (JObj (set_prop "toolCalls" (JArr []) (own_props parsed)));
     Backend.agentRunWithToolExecutor name providerHandle _tools messages options _toolExecutor :=
       wasm_agentRun wasm name providerHandle _tools messages options |}.

(** ** The host world *)

(** A [Provider] object; [Provider] references are addresses in [heap]. *)
Record ProviderObj : Type := { handle : JsVal; destroyed : bool }.

Definition ProviderRef : Type := nat.

(** A call made by a facade on the active backend (the tool executor of
    [agentRunWithToolExecutor] is not recorded). *)
Inductive BackendCall : Type :=
| CreateProvider (type : ProviderType) (model : string) (options : ProviderOptions.t)
| DestroyProvider (handle : JsVal)
| Generate (handle : JsVal) (messages : list Message.t) (temperature maxTokens : option number)
| AgentRun (name : string) (providerHandle : JsVal) (tools : list ToolSchema.t)
    (messages : list Message.t) (options : AgentOptions.t)
| AgentRunWithToolExecutor (name : string) (providerHandle : JsVal)
    (tools : list ToolSchema.t) (messages : list Message.t) (options : AgentOptions.t).

Record World : Type := {
  _backend : option Backend.t;          (* the module variable of backend.ts *)
  heap : list ProviderObj;              (* every Provider object created so far *)
  installed : string -> option NativeModule;  (* what require() can load *)
  probes : list string;                 (* packages require() was asked for *)
  calls : list BackendCall;             (* calls made on the active backend *)
  boundary : Trace                      (* what crossed to native code and to host tools *)
}.

Definition set_backend (b : option Backend.t) (w : World) : World :=
  {| _backend := b; heap := heap w; installed := installed w;
     probes := probes w; calls := calls w; boundary := boundary w |}.
Definition set_heap (h : list ProviderObj) (w : World) : World :=
  {| _backend := _backend w; heap := h; installed := installed w;
     probes := probes w; calls := calls w; boundary := boundary w |}.
Definition add_probe (pkg : string) (w : World) : World :=
  {| _backend := _backend w; heap := heap w; installed := installed w;
     probes := probes w ++ [pkg]; calls := calls w; boundary := boundary w |}.
Definition add_call (c : BackendCall) (tr : Trace) (w : World) : World :=
  {| _backend := _backend w; heap := heap w; installed := installed w;
     probes := probes w; calls := calls w ++ [c]; boundary := tr |}.

(** Host code: its state is the world. *)
Definition H (A : Type) : Type := M World A.

(** A method call [backend.m(...)]: recorded, then run on the boundary. *)
Definition invoke {A} (c : BackendCall) (m : N A) : H A :=
  fun w => let '(r, tr) := m (boundary w) in (r, add_call c tr w).

(** ** [backend.ts]: selection *)

Definition napi_package : string := "@giulio-leone/gauss-core-napi".
Definition wasm_package : string := "@giulio-leone/gauss-core-wasm".

Definition require (pkg : string) : H NativeModule :=
  fun w =>
    (match installed w pkg with
     | Some m => Ok m
     | None => Throw (Error ("Cannot find module '" +:+ pkg +:+ "'"))
     end, add_probe pkg w).

Definition no_backend_message : string :=
  "No Gauss backend found. Install @giulio-leone/gauss-core-napi (Node.js) or @giulio-leone/gauss-core-wasm (Browser/Edge).".

Definition detectBackend : H Backend.t :=
  fun w =>
    (* Try NAPI first (Node.js) *)
    match require napi_package w with
    | (Ok napi, w1) => (Ok (createNapiBackend napi), w1)
    | (Throw _, w1) =>
        (* Try WASM *)
        match require wasm_package w1 with
        | (Ok wasm, w2) => (Ok (createWasmBackend wasm), w2)
        | (Throw _, w2) => (Throw (Error no_backend_message), w2)
        end
    end.

Definition getBackend : H Backend.t :=
  fun w =>
    match _backend w with
    | Some b => (Ok b, w)
    | None =>
        match detectBackend w with
        | (Ok b, w') => (Ok b, set_backend (Some b) w')
        | (Throw e, w') => (Throw e, w')
        end
    end.

Definition setBackend (backend : Backend.t) : H unit :=
  fun w => (Ok tt, set_backend (Some backend) w).

(** ** [provider.ts] *)

(** Reading through a reference.  A reference that was never allocated
    does not arise: references come from [new_Provider] only. *)
Definition deref (this : ProviderRef) : H ProviderObj :=
  fun w =>
    match heap w !! this with
    | Some o => (Ok o, w)
    | None => (Throw TypeError, w)
    end.

Definition new_Provider (handle : JsVal) : H ProviderRef :=
  fun w =>
    (Ok (length (heap w)),
     set_heap (heap w ++ [{| handle := handle; destroyed := false |}]) w).

Definition destroyed_message : string := "Provider has been destroyed".

Module Provider.

Definition getHandle (this : ProviderRef) : H JsVal :=
  let* o := deref this in
  if destroyed o then throw (Error destroyed_message)
  else ret (handle o).

Definition generate (this : ProviderRef) (messages : list Message.t)
    (options : option GenerateOptions.t) : H JsVal :=
  let* o := deref this in
  if destroyed o then throw (Error destroyed_message)
  else
    let* backend := getBackend in
    let temperature := options ≫= GenerateOptions.temperature in
    let maxTokens := options ≫= GenerateOptions.maxTokens in
    invoke (Generate (handle o) messages temperature maxTokens)
      (Backend.generate backend (handle o) messages temperature maxTokens).

Definition destroy (this : ProviderRef) : H unit :=
  let* o := deref this in
  if negb (destroyed o) then
    let* backend := getBackend in
    let* _ := invoke (DestroyProvider (handle o))
                (Backend.destroyProvider backend (handle o)) in
    fun w =>
      (Ok tt, set_heap (<[this := {| handle := handle o; destroyed := true |}]> (heap w)) w)
  else ret tt.

End Provider.

Definition createProvider (type : ProviderType) (model : string)
    (options : ProviderOptions.t) : H ProviderRef :=
  let* backend := getBackend in
  let* handle :=
    invoke (CreateProvider type model options)
      (Backend.createProvider backend type model options) in
  new_Provider handle.

(** ** [agent.ts] *)

Module Agent.

Record t : Type := mk {
  name : string;
  provider : ProviderRef;
  options : AgentOptions.t
}.

(** [typeof t.execute === 'function'], and the truthiness test of
    [if (t.execute)]: a tool carries a host implementation or not. *)
Definition has_execute (t : ToolDef.t) : bool :=
  match ToolDef.execute t with Some _ => true | None => false end.

Definition schema_of (t : ToolDef.t) : ToolSchema.t :=
  {| ToolSchema.name := ToolDef.name t;
     ToolSchema.description := ToolDef.description t;
     ToolSchema.parameters := ToolDef.parameters t |}.

(** The loop that fills [executorMap]. *)
Definition build_executorMap (tools : list ToolDef.t) : gmap string HostFn :=
  foldl (fun m t =>
           match ToolDef.execute t with
           | Some fn => <[ToolDef.name t := fn]> m
           | None => m
           end) ∅ tools.

(** [executorMap.get(tool)]: the keys are strings, so only a string can
    hit. *)
Definition executorMap_get (executorMap : gmap string HostFn) (tool : JsVal)
  : option HostFn :=
  match tool with
  | JStr key => executorMap !! key
  | _ => None
  end.

(** [await fn(args)] *)
Definition call_host (tool : JsVal) (fn : HostFn) (args : JsVal) : N JsVal :=
  fun tr => (fn args, tr ++ [ToolExec (ToString tool) args]).

Definition toolExecutor (executorMap : gmap string HostFn) (callJson : string)
  : N JsVal :=
  let* parsed := lift (JSON_parse callJson) in
  let* tool := lift (get_prop parsed "tool") in
  let* args := lift (get_prop parsed "args") in
  match executorMap_get executorMap tool with
  | None => throw (Error ("No execute function for tool: " +:+ ToString tool))
  | Some fn =>
      let* result := call_host tool fn args in
      ret (JSON_stringify result)
  end.

Definition run (this : t) (messages : list Message.t) : H JsVal :=
  let* backend := getBackend in
  let tools := default [] (AgentOptions.tools (options this)) in
  let toolSchemas := map schema_of tools in
  let hasExecuteFns := existsb has_execute tools in
  if hasExecuteFns then
    let executorMap := build_executorMap tools in
    let* providerHandle := Provider.getHandle (provider this) in
    invoke
      (AgentRunWithToolExecutor (name this) providerHandle toolSchemas messages (options this))
      (Backend.agentRunWithToolExecutor backend
         (name this) providerHandle toolSchemas messages (options this)
         (toolExecutor executorMap))
  else
    let* providerHandle := Provider.getHandle (provider this) in
    invoke
      (AgentRun (name this) providerHandle toolSchemas messages (options this))
      (Backend.agentRun backend
         (name this) providerHandle toolSchemas messages (options this)).

End Agent.

Definition createAgent (name : string) (provider : ProviderRef)
    (options : option AgentOptions.t) : Agent.t :=
  Agent.mk name provider (default AgentOptions.empty options).

(** The same agent with every host implementation taken away. *)
Definition without_execute (agent : Agent.t) : Agent.t :=
  let o := Agent.options agent in
  Agent.mk (Agent.name agent) (Agent.provider agent)
    (AgentOptions.mk
       (AgentOptions.instructions o) (AgentOptions.maxSteps o)
       (AgentOptions.temperature o) (AgentOptions.topP o)
       (AgentOptions.maxTokens o) (AgentOptions.seed o)
       (AgentOptions.stopOnTool o) (AgentOptions.outputSchema o)
       (option_map
          (map (fun t => ToolDef.mk (ToolDef.name t) (ToolDef.description t)
                           (ToolDef.parameters t) None))
          (AgentOptions.tools o))).

(** ** Programs over the host API

    A process is a sequence of calls on the exported API; [exec] runs one
    from a world.  A rejected call leaves the process running. *)

Inductive Op : Type :=
| OpGetBackend
| OpSetBackend (backend : Backend.t)
| OpCreateProvider (type : ProviderType) (model : string) (options : ProviderOptions.t)
| OpNewProvider (handle : JsVal)
| OpGetHandle (this : ProviderRef)
| OpGenerate (this : ProviderRef) (messages : list Message.t) (options : option GenerateOptions.t)
| OpDestroy (this : ProviderRef)
| OpRun (agent : Agent.t) (messages : list Message.t).

Definition perform (op : Op) (w : World) : World :=
  match op with
  | OpGetBackend => snd (getBackend w)
  | OpSetBackend b => snd (setBackend b w)
  | OpCreateProvider type model options => snd (createProvider type model options w)
  | OpNewProvider h => snd (new_Provider h w)
  | OpGetHandle this => snd (Provider.getHandle this w)
  | OpGenerate this messages options => snd (Provider.generate this messages options w)
  | OpDestroy this => snd (Provider.destroy this w)
  | OpRun agent messages => snd (Agent.run agent messages w)
  end.

Definition exec (ops : list Op) (w : World) : World :=
  foldl (fun w' op => perform op w') w ops.

Definition is_setBackend (op : Op) : bool :=
  match op with OpSetBackend _ => true | _ => false end.

(** The world of a process that has just started. *)
Definition initial (env : string -> option NativeModule) : World :=
  {| _backend := None; heap := []; installed := env;
     probes := []; calls := []; boundary := [] |}.

Definition reachable (w : World) : Prop :=
  exists env ops, w = exec ops (initial env).

(** [mentions needle text]: [needle] occurs in [text]. *)
Fixpoint mentions (needle text : string) : bool :=
  String.prefix needle text ||
  match text with
  | EmptyString => false
  | String _ rest => mentions needle rest
  end.

(** ** Sequences of calls on one provider *)

Inductive ProviderOp : Type :=
| DoDestroy
| DoGenerate (messages : list Message.t) (options : option GenerateOptions.t).

(** What each call of the sequence settles to ([destroy] returns
    [undefined]), and the world at the end. *)
Fixpoint run_ops (this : ProviderRef) (ops : list ProviderOp) (w : World)
  : list (result JsVal) * World :=
  match ops with
  | [] => ([], w)
  | DoDestroy :: rest =>
      let '(r, w1) := Provider.destroy this w in
      let '(rs, w2) := run_ops this rest w1 in
      (match r with Ok _ => Ok JUndefined | Throw e => Throw e end :: rs, w2)
  | DoGenerate messages options :: rest =>
      let '(r, w1) := Provider.generate this messages options w in
      let '(rs, w2) := run_ops this rest w1 in
      (r :: rs, w2)
  end.

Definition after_destroy (op : ProviderOp) : result JsVal :=
  match op with
  | DoDestroy => Ok JUndefined
  | DoGenerate _ _ => Throw (Error destroyed_message)
  end.

(** ** A scripted engine

    The agent loop runs inside the native module; its source is not part
    of the TypeScript package. *)

(** Modelled from the spec: what the model does in one step of the
    engine's loop, which is native code: it requests a tool through the
    executor, or gives the final answer. *)
Inductive ModelTurn : Type :=
| RequestTool (callJson : string)
| FinalAnswer (text : string).

(** Modelled from the spec: the engine's step loop, which is native code.
    Each turn of the model is one step; step N+1 begins only after the
    tool result required by step N is resolved; a failed tool call fails
    the run; [steps] in the [AgentResult] counts the steps taken. *)
Fixpoint scripted_engine (script : list ModelTurn) (steps : nat) : Engine :=
  match script with
  | [] => Settle (Throw (Error "the model gave no final answer"))
  | FinalAnswer text :: _ =>
      Settle (Ok (JObj [("text", JStr text);
                        ("steps", JNum (pretty (S steps)));
                        ("inputTokens", JNum "0");
                        ("outputTokens", JNum "0")]))
  | RequestTool callJson :: rest =>
      CallTool callJson
        (fun r =>
           match r with
           | Ok _ => scripted_engine rest (S steps)
           | Throw e => Settle (Throw e)
           end)
  end.

(** The call envelope the engine writes for a tool request. *)
Definition envelope (tool : string) (args : JsVal) : string :=
  ToString (JSON_stringify (JObj [("tool", JStr tool); ("args", args)])).

(** ** Sample modules, tools and worlds *)

Definition sample_reply : JsVal :=
  JObj [("text", JStr "done"); ("steps", JNum "1");
        ("inputTokens", JNum "3"); ("outputTokens", JNum "5")].

Definition sample_answer (fn : string) : result JsVal :=
  if String.eqb fn "createProvider" then Ok (JNum "1")
  else if String.eqb fn "destroyProvider" then Ok JUndefined
  else Ok sample_reply.

(** A NAPI module whose model asks for tool [A] once and then answers. *)
Definition sample_napi : NativeModule :=
  {| answer _ fn _ := sample_answer fn;
     run_engine _ _ :=
       scripted_engine
         [RequestTool (envelope "A" (JObj [("q", JStr "6x7")])); FinalAnswer "It is 42."] 0 |}.

(** A NAPI module whose model asks for tool [B]. *)
Definition asking_B_napi : NativeModule :=
  {| answer _ fn _ := sample_answer fn;
     run_engine _ _ :=
       scripted_engine [RequestTool (envelope "B" (JObj [])); FinalAnswer "unused"] 0 |}.

(** A WASM module: replies are JSON texts. *)
Definition sample_wasm : NativeModule :=
  {| answer _ fn _ :=
       if String.eqb fn "createProvider" then Ok (JNum "1")
       else if String.eqb fn "destroyProvider" then Ok JUndefined
       else Ok (JSON_stringify
                  (JObj [("text", JStr "done"); ("steps", JNum "1");
                         ("usage", JObj [("inputTokens", JNum "3");
                                         ("outputTokens", JNum "5")])]));
     run_engine _ _ := Settle (Throw (Error "no callback channel")) |}.

Definition env_none : string -> option NativeModule := fun _ => None.
Definition env_napi : string -> option NativeModule :=
  fun pkg => if String.eqb pkg napi_package then Some sample_napi else None.
Definition env_wasm : string -> option NativeModule :=
  fun pkg => if String.eqb pkg wasm_package then Some sample_wasm else None.
Definition env_both : string -> option NativeModule :=
  fun pkg =>
    if String.eqb pkg napi_package then Some sample_napi
    else if String.eqb pkg wasm_package then Some sample_wasm
    else None.

Definition env_asking_B : string -> option NativeModule :=
  fun pkg => if String.eqb pkg napi_package then Some asking_B_napi else None.

(** A NAPI module that refuses to release: its [destroyProvider] throws. *)
Definition stuck_napi : NativeModule :=
  {| answer _ fn _ :=
       if String.eqb fn "destroyProvider" then Throw (Reason (JStr "provider busy"))
       else sample_answer fn;
     run_engine _ _ := Settle (Ok sample_reply) |}.

Definition env_stuck : string -> option NativeModule :=
  fun pkg => if String.eqb pkg napi_package then Some stuck_napi else None.

(** A test double in the sense of [setBackend]: every method rejects. *)
Definition test_double : Backend.t :=
  {| Backend.createProvider _ _ _ := throw (Error "double");
     Backend.destroyProvider _ := throw (Error "double");
     Backend.generate _ _ _ _ := throw (Error "double");
     Backend.generateWithTools _ _ _ _ _ := throw (Error "double");
     Backend.agentRun _ _ _ _ _ := throw (Error "double");
     Backend.agentRunWithToolExecutor _ _ _ _ _ _ := throw (Error "double") |}.

Definition tool_A : ToolDef.t :=
  {| ToolDef.name := "A"; ToolDef.description := "answers";
     ToolDef.parameters := None;
     ToolDef.execute := Some (fun _ => Ok (JStr "42")) |}.

Definition tool_B : ToolDef.t :=
  {| ToolDef.name := "B"; ToolDef.description := "schema only";
     ToolDef.parameters := None; ToolDef.execute := None |}.

Definition options_with (tools : list ToolDef.t) : AgentOptions.t :=
  AgentOptions.mk None None None None None None None None (Some tools).

Definition seed_only (seed : number) (tools : list ToolDef.t) : AgentOptions.t :=
  AgentOptions.mk None None None None None (Some seed) None None (Some tools).

Definition key_only : ProviderOptions.t :=
  ProviderOptions.mk "k" None None None None.

Definition hello : list Message.t := [Message.mk user "Hello!"].

(** A message written content first, with a property of its own. *)
Definition named_message : Message.t :=
  Message.of_object [("content", JStr "Hi"); ("role", JStr "user"); ("name", JStr "ada")].


(** ** The earlier [Agent.run]

    The tree also holds the [agent.ts] that preceded host tool execution:
    its [run] always delegates to [agentRun]. *)

Module LegacyAgent.
Definition run (this : Agent.t) (messages : list Message.t) : H JsVal :=
  let* backend := getBackend in
  let tools := map Agent.schema_of (default [] (AgentOptions.tools (Agent.options this))) in
  let* providerHandle := Provider.getHandle (Agent.provider this) in
  invoke
    (AgentRun (Agent.name this) providerHandle tools messages (Agent.options this))
    (Backend.agentRun backend
       (Agent.name this) providerHandle tools messages (Agent.options this)).
End LegacyAgent.

(** Boundary code that only adds events of one kind to the trace. *)
Definition appends_with {A} (P : BoundaryEvent -> Prop) (m : N A) : Prop :=
  forall tr, exists rest, snd (m tr) = tr ++ rest /\ Forall P rest.

(** An event that is no host execution, or the execution of a tool of
    [tools] that carries an [execute]. *)
Definition from_table (tools : list ToolDef.t) (e : BoundaryEvent) : Prop :=
  match e with
  | NativeCall _ _ _ => True
  | ToolExec tool _ =>
      exists t, t ∈ tools /\ ToolDef.name t = tool /\ is_Some (ToolDef.execute t)
  end.

(** [n] calls of [getBackend()] in a row. *)
Definition getBackend_times (n : nat) (w : World) : World :=
  Nat.iter n (fun w' => snd (getBackend w')) w.

(** A second tool named [A], with another implementation. *)
Definition tool_A' : ToolDef.t :=
  {| ToolDef.name := "A"; ToolDef.description := "answers otherwise";
     ToolDef.parameters := None;
     ToolDef.execute := Some (fun _ => Ok (JStr "43")) |}.

(** A tool named [A] that carries no implementation. *)
Definition tool_A_schema : ToolDef.t :=
  {| ToolDef.name := "A"; ToolDef.description := "schema only";
     ToolDef.parameters := None; ToolDef.execute := None |}.

(** A NAPI module whose reply carries more than the SDK forwards. *)
Definition verbose_reply : JsVal :=
  JObj [("text", JStr "done"); ("steps", JNum "1");
        ("inputTokens", JNum "3"); ("outputTokens", JNum "5");
        ("structuredOutput", JNull); ("thinking", JStr "hm")].

Definition verbose_napi : NativeModule :=
  {| answer _ _ _ := Ok verbose_reply;
     run_engine _ _ := Settle (Ok verbose_reply) |}.

(** A WASM module whose [generate] reply already lists tool calls. *)
Definition calling_wasm : NativeModule :=
  {| answer _ _ _ :=
       Ok (JSON_stringify
             (JObj [("text", JStr "done");
                    ("toolCalls", JArr [JObj [("name", JStr "A")]])]));
     run_engine _ _ := Settle (Throw (Error "no callback channel")) |}.

Definition all_options : ProviderOptions.t :=
  ProviderOptions.mk "k" (Some "http://localhost") (Some "1000") (Some "3") (Some "org").

Definition key_and_url : ProviderOptions.t :=
  ProviderOptions.mk "k" (Some "http://localhost") None None None.

(** ** Invariants of the host world *)

(** A destroyed provider exists only where a backend has been selected:
    [destroy()] marks the object after it has obtained the backend. *)
Definition selected_if_destroyed (w : World) : Prop :=
  forall p o, heap w !! p = Some o -> destroyed o = true -> is_Some (_backend w).

(** What one API call may do to selection and to the destroyed marks. *)
Definition footprint (w w' : World) : Prop :=
  is_Some (_backend w') \/
  (_backend w' = _backend w /\
   forall p o', heap w' !! p = Some o' -> destroyed o' = true ->
                exists o, heap w !! p = Some o /\ destroyed o = true).

(** ** The JSON fragment at work *)

Example parse_reads_doubles :
  JSON_parse "[1.0, 12345678901234567890, 0.1e1, 1e400, -0, 5e-324, 1e21]" =
  Ok (JArr [JNum "1"; JNum "12345678901234567000"; JNum "1"; JNum "Infinity"; JNum "0";
            JNum "5e-324"; JNum "1e+21"]).
Proof. vm_compute. reflexivity. Qed.

Example parse_orders_keys :
  JSON_parse ("{" +:+ quoted "b" +:+ ":1," +:+ quoted "2" +:+ ":2," +:+ quoted "a" +:+ ":3,"
                  +:+ quoted "1" +:+ ":4," +:+ quoted "b" +:+ ":5," +:+ quoted "01" +:+ ":6}") =
  Ok (JObj [("1", JNum "4"); ("2", JNum "2"); ("b", JNum "5"); ("a", JNum "3");
            ("01", JNum "6")]).
Proof. vm_compute. reflexivity. Qed.

Example parse_joins_surrogates :
  JSON_parse (quoted (String backslash "ud83d" +:+ String backslash "ude00")) =
    Ok (JStr (String "240" (String "159" (String "152" (String "128" ""))))) /\
  JSON_parse (quoted (String backslash "ud83d" +:+ "!")) =
    Ok (JStr (String "237" (String "160" (String "189" "!")))) /\
  JSON_stringify (JStr (String "237" (String "160" (String "189" "!")))) =
    JStr (quoted (String backslash "ud83d" +:+ "!")).
Proof. vm_compute. repeat split. Qed.

Example stringify_writes_no_infinity :
  JSON_stringify (JArr [JNum "Infinity"; JNum "-Infinity"; JNum "NaN"; JNum "1.5"]) =
  JStr "[null,null,null,1.5]".
Proof. vm_compute. reflexivity. Qed.

(** The two strategies on the same message: the Envelope strategy writes
    the object as it is, the Direct strategy rebuilds it from [role] and
    [content]. *)
Example messages_as_sent :
  wasm_messages [named_message] =
    JStr ("[{" +:+ quoted "content" +:+ ":" +:+ quoted "Hi" +:+ "," +:+
          quoted "role" +:+ ":" +:+ quoted "user" +:+ "," +:+
          quoted "name" +:+ ":" +:+ quoted "ada" +:+ "}]") /\
  message_obj named_message = JObj [("role", JStr "user"); ("content", JStr "Hi")] /\
  wasm_messages hello = JSON_stringify (JArr (map message_obj hello)).
Proof. vm_compute. repeat split. Qed.

(** ** Basic facts about selection *)

Lemma getBackend_memo (w : World) (b : Backend.t) :
  _backend w = Some b -> getBackend w = (Ok b, w).
Proof. intros E. unfold getBackend. rewrite E. reflexivity. Qed.

Lemma detectBackend_frame (w : World) (r : result Backend.t) (w1 : World) :
  detectBackend w = (r, w1) ->
  _backend w1 = _backend w /\ heap w1 = heap w /\ installed w1 = installed w /\
  calls w1 = calls w /\ boundary w1 = boundary w.
Proof.
  unfold detectBackend, require. cbn.
  destruct (installed w napi_package); [intros [= <- <-]; cbn; auto|].
  destruct (installed w wasm_package); intros [= <- <-]; cbn; auto.
Qed.

Lemma getBackend_frame (w : World) (r : result Backend.t) (w1 : World) :
  getBackend w = (r, w1) ->
  heap w1 = heap w /\ installed w1 = installed w /\
  calls w1 = calls w /\ boundary w1 = boundary w /\
  (is_Some (_backend w) -> w1 = w) /\
  (forall b, r = Ok b -> _backend w1 = Some b).
Proof.
  unfold getBackend. destruct (_backend w) as [b0|] eqn:Eb.
  - intros [= <- <-]. repeat split; auto. intros b [= ->]. exact Eb.
  - destruct (detectBackend w) as [[b|e] w'] eqn:Ed;
      apply detectBackend_frame in Ed; destruct Ed as (? & ? & ? & ? & ?);
      intros [= <- <-]; cbn; repeat split; auto;
      try (intros [? [=]]); try (intros ? [=]); congruence.
Qed.

(** ** Backend selection *)

(** C5.  [detectBackend] asks for the NAPI package first and takes it when
    it loads, without asking for the WASM package; only when NAPI fails to
    load does it ask for the WASM package, and takes it when it loads; when
    both fail it throws an [Error] whose message names both packages. *)
Theorem detectBackend_priority (w : World) :
  (forall napi,
      installed w napi_package = Some napi ->
      detectBackend w = (Ok (createNapiBackend napi), add_probe napi_package w)) /\
  (forall wasm,
      installed w napi_package = None ->
      installed w wasm_package = Some wasm ->
      detectBackend w =
        (Ok (createWasmBackend wasm), add_probe wasm_package (add_probe napi_package w))) /\
  (installed w napi_package = None ->
   installed w wasm_package = None ->
   exists message,
     detectBackend w =
       (Throw (Error message), add_probe wasm_package (add_probe napi_package w)) /\
     mentions napi_package message = true /\
     mentions wasm_package message = true).
Proof.
  repeat split.
  - intros napi E. unfold detectBackend, require. rewrite E. reflexivity.
  - intros wasm E1 E2. unfold detectBackend, require. rewrite E1. cbn. rewrite E2.
    reflexivity.
  - intros E1 E2. exists no_backend_message. repeat split.
    unfold detectBackend, require. rewrite E1. cbn. rewrite E2. reflexivity.
Qed.

Lemma detectBackend_priority_witness :
  detectBackend (initial env_both) =
    (Ok (createNapiBackend sample_napi), add_probe napi_package (initial env_both)) /\
  detectBackend (initial env_wasm) =
    (Ok (createWasmBackend sample_wasm),
     add_probe wasm_package (add_probe napi_package (initial env_wasm))) /\
  exists message,
    detectBackend (initial env_none) =
      (Throw (Error message),
       add_probe wasm_package (add_probe napi_package (initial env_none))) /\
    mentions napi_package message = true /\
    mentions wasm_package message = true.
Proof.
  split; [|split].
  - apply (proj1 (detectBackend_priority (initial env_both))). reflexivity.
  - apply (proj1 (proj2 (detectBackend_priority (initial env_wasm)))); reflexivity.
  - apply (proj2 (proj2 (detectBackend_priority (initial env_none)))); reflexivity.
Defined.

Ltac unfold_host :=
  unfold perform, createProvider, new_Provider, setBackend,
    Provider.generate, Provider.destroy, Provider.getHandle, Agent.run,
    deref, invoke, bind, ret, throw, lift in *.

Lemma perform_keeps_selection (op : Op) (w : World) (b : Backend.t) :
  _backend w = Some b ->
  probes (perform op w) = probes w /\
  is_Some (_backend (perform op w)) /\
  (is_setBackend op = false -> _backend (perform op w) = Some b).
Proof.
  intros E. pose proof (getBackend_memo w b E) as G.
  destruct op; repeat unfold_host; cbn; rewrite ?G; cbn;
    repeat (case_match; cbn in *; simplify_eq; cbn; rewrite ?E); eauto.
  intuition (eauto; discriminate).
Qed.

Lemma exec_snoc (ops : list Op) (op : Op) (w : World) :
  exec (ops ++ [op]) w = perform op (exec ops w).
Proof. unfold exec. rewrite foldl_app. reflexivity. Qed.

Lemma exec_keeps_selection (ops : list Op) (w : World) (b : Backend.t) :
  _backend w = Some b ->
  probes (exec ops w) = probes w /\
  is_Some (_backend (exec ops w)) /\
  (forallb (fun op => negb (is_setBackend op)) ops = true ->
   _backend (exec ops w) = Some b).
Proof.
  revert w b. induction ops as [|op ops IH]; intros w b E.
  - cbn. eauto.
  - destruct (perform_keeps_selection op w b E) as (P & [b' S] & K).
    destruct (IH (perform op w) b' S) as (P' & S' & K').
    change (exec (op :: ops) w) with (exec ops (perform op w)).
    split; [congruence|]. split; [exact S'|].
    cbn. intros F. apply andb_true_iff in F as [F1 F2].
    apply negb_true_iff in F1. specialize (K F1).
    destruct (IH (perform op w) b K) as (_ & _ & K''). auto.
Qed.

(** C6, as the code has it.  A successful [getBackend()] leaves its result
    in [_backend]; as long as [setBackend] is not called, every later
    [getBackend()] returns that same backend and changes nothing; whatever
    is called later, [require] is never asked again, so auto-detection
    assigns [_backend] at most once; and [setBackend] replaces the memoized
    backend whenever it is called, before, instead of or after
    auto-detection: the next [getBackend()] returns the override. *)
Theorem getBackend_memoized (w w1 : World) (b : Backend.t) (ops : list Op) :
  getBackend w = (Ok b, w1) ->
  _backend w1 = Some b /\
  (forallb (fun op => negb (is_setBackend op)) ops = true ->
   getBackend (exec ops w1) = (Ok b, exec ops w1)) /\
  probes (exec ops w1) = probes w1 /\
  (forall b',
      getBackend (exec (ops ++ [OpSetBackend b']) w1) =
        (Ok b', exec (ops ++ [OpSetBackend b']) w1)) /\
  (forall w0 b',
      getBackend (snd (setBackend b' w0)) = (Ok b', snd (setBackend b' w0)) /\
      probes (snd (setBackend b' w0)) = probes w0).
Proof.
  intros G. apply getBackend_frame in G as (_ & _ & _ & _ & _ & S).
  specialize (S b eq_refl).
  destruct (exec_keeps_selection ops w1 b S) as (P & _ & K).
  split; [exact S|]. split; [|split; [exact P|split]].
  - intros F. apply getBackend_memo. auto.
  - intros b'. rewrite exec_snoc. apply getBackend_memo. reflexivity.
  - intros w0 b'. split; [apply getBackend_memo|]; reflexivity.
Qed.

Lemma getBackend_memoized_witness :
  let w1 := snd (getBackend (initial env_napi)) in
  let later := [OpCreateProvider openai "gpt-4o" key_only; OpGetBackend; OpDestroy 0] in
  _backend w1 = Some (createNapiBackend sample_napi) /\
  getBackend (exec later w1) = (Ok (createNapiBackend sample_napi), exec later w1) /\
  probes (exec later w1) = probes w1.
Proof.
  intros w1 later.
  pose proof (getBackend_memoized (initial env_napi) w1
                (createNapiBackend sample_napi) later eq_refl) as (S & K & P & _).
  split; [exact S|]. split; [|exact P].
  apply K. reflexivity.
Defined.

(** C6, as stated, fails: after a successful auto-detection, [setBackend]
    still takes effect; [_backend] is assigned a second time and the next
    [getBackend()] returns another backend than the first one did. *)
Lemma setBackend_after_detection_overrides :
  let w1 := exec [OpGetBackend] (initial env_napi) in
  let w2 := exec [OpSetBackend test_double] w1 in
  fst (getBackend (initial env_napi)) = Ok (createNapiBackend sample_napi) /\
  _backend w1 = Some (createNapiBackend sample_napi) /\
  _backend w2 = Some test_double /\
  fst (getBackend w2) = Ok test_double /\
  test_double <> createNapiBackend sample_napi.
Proof.
  cbv zeta. repeat split.
  intros E.
  apply (f_equal (fun b => fst (Backend.destroyProvider b JNull []))) in E.
  discriminate E.
Qed.

(** ** Provider handles *)

Lemma getHandle_live (this : ProviderRef) (w : World) (o : ProviderObj) :
  heap w !! this = Some o -> destroyed o = false ->
  Provider.getHandle this w = (Ok (handle o), w).
Proof. intros E D. unfold_host. rewrite E. cbn. rewrite D. reflexivity. Qed.

Lemma getHandle_destroyed (this : ProviderRef) (w : World) (o : ProviderObj) :
  heap w !! this = Some o -> destroyed o = true ->
  Provider.getHandle this w = (Throw (Error destroyed_message), w).
Proof. intros E D. unfold_host. rewrite E. cbn. rewrite D. reflexivity. Qed.

Lemma destroy_destroyed (this : ProviderRef) (w : World) (o : ProviderObj) :
  heap w !! this = Some o -> destroyed o = true ->
  Provider.destroy this w = (Ok tt, w).
Proof. intros E D. unfold_host. rewrite E. cbn. rewrite D. reflexivity. Qed.

Lemma generate_destroyed (this : ProviderRef) (w : World) (o : ProviderObj)
    (messages : list Message.t) (options : option GenerateOptions.t) :
  heap w !! this = Some o -> destroyed o = true ->
  Provider.generate this messages options w = (Throw (Error destroyed_message), w).
Proof. intros E D. unfold_host. rewrite E. cbn. rewrite D. reflexivity. Qed.

(** The destroyed mark is never taken back. *)
Ltac heap_after_getBackend :=
  repeat match goal with
         | G : getBackend _ = (_, _) |- _ =>
             let Hh := fresh "Hh" in
             apply getBackend_frame in G as (Hh & _); try rewrite Hh
         end.

Lemma perform_keeps_destroyed (op : Op) (w : World) (p : ProviderRef) (o : ProviderObj) :
  heap w !! p = Some o -> destroyed o = true ->
  exists o', heap (perform op w) !! p = Some o' /\ destroyed o' = true /\ handle o' = handle o.
Proof.
  intros L D.
  assert (K : forall w', heap w' = heap w ->
              exists o', heap w' !! p = Some o' /\ destroyed o' = true /\ handle o' = handle o).
  { intros w' ->. eauto. }
  assert (A : forall x, exists o', (heap w ++ [x]) !! p = Some o' /\
                                   destroyed o' = true /\ handle o' = handle o).
  { intros x. exists o. rewrite lookup_app_l by (eapply lookup_lt_Some; eassumption). auto. }
  destruct op; repeat unfold_host; cbn;
    repeat (case_match; cbn in *; simplify_eq; cbn);
    heap_after_getBackend;
    try (apply K; congruence); try apply A.
  - destruct (getBackend w) as [r w0] eqn:G. apply K. cbn.
    apply getBackend_frame in G as (Hh & _). exact Hh.
  - destruct (decide (this = p)) as [->|Ne].
    + eexists. rewrite list_lookup_insert_eq by (eapply lookup_lt_Some; eassumption).
      split; [reflexivity|]. split; [reflexivity|]. cbn. congruence.
    + exists o. rewrite list_lookup_insert_ne by exact Ne. auto.
Qed.

Lemma exec_keeps_destroyed (ops : list Op) (w : World) (p : ProviderRef) (o : ProviderObj) :
  heap w !! p = Some o -> destroyed o = true ->
  exists o', heap (exec ops w) !! p = Some o' /\ destroyed o' = true /\ handle o' = handle o.
Proof.
  revert w o. induction ops as [|op ops IH]; intros w o L D.
  - exists o. auto.
  - destruct (perform_keeps_destroyed op w p o L D) as (o1 & L1 & D1 & H1).
    destruct (IH (perform op w) o1 L1 D1) as (o2 & L2 & D2 & H2).
    exists o2. split; [exact L2|]. split; [exact D2|]. congruence.
Qed.

(** What a first [destroy()] that returns normally has done. *)
Lemma destroy_live (this : ProviderRef) (w w1 : World) (o : ProviderObj) :
  heap w !! this = Some o -> destroyed o = false ->
  Provider.destroy this w = (Ok tt, w1) ->
  exists b w0 tr,
    getBackend w = (Ok b, w0) /\
    Backend.destroyProvider b (handle o) (boundary w) = (Ok tt, tr) /\
    w1 = set_heap (<[this := {| handle := handle o; destroyed := true |}]> (heap w))
           (add_call (DestroyProvider (handle o)) tr w0).
Proof.
  intros E D. unfold_host. rewrite E. cbn. rewrite D. cbn.
  destruct (getBackend w) as [[b|e] w0] eqn:G; [|discriminate].
  pose proof (getBackend_frame _ _ _ G) as (Hh & _ & _ & Hb & _).
  rewrite Hb.
  destruct (Backend.destroyProvider b (handle o) (boundary w)) as [[[]|e] tr] eqn:R;
    [|discriminate].
  intros [= <-]. exists b, w0, tr. cbn. rewrite Hh. auto.
Qed.

Lemma destroy_throws (this : ProviderRef) (w w1 : World) (o : ProviderObj) (e : Exn) :
  heap w !! this = Some o -> destroyed o = false ->
  Provider.destroy this w = (Throw e, w1) ->
  heap w1 = heap w.
Proof.
  intros E D. unfold_host. rewrite E. cbn. rewrite D. cbn.
  destruct (getBackend w) as [[b|e'] w0] eqn:G;
    pose proof (getBackend_frame _ _ _ G) as (Hh & _).
  - destruct (Backend.destroyProvider b (handle o) (boundary w0)) as [[[]|e''] tr];
      [discriminate|]. intros [= _ <-]. exact Hh.
  - intros [= _ <-]. exact Hh.
Qed.

(** C1, as the code has it.  Take a provider that is not destroyed and
    call [destroy()].  If the call throws (no backend could be obtained, or
    [backend.destroyProvider] threw), the provider is not marked: it is as
    usable as before.  If the call returns normally, it has run
    [backend.destroyProvider] (the method of the active backend, reaching
    the native module of the NAPI and of the WASM backend) once on the
    provider's handle, and marked the provider.  From then on, after
    whatever other API calls the process makes, every sequence of
    [destroy()] and [generate()] calls on the provider behaves alike: each
    [destroy()] returns normally, each [generate()] fails with the
    use-after-destroy error, and the world is left as it was: the backend
    is not reached. *)
Theorem destroy_idempotent (this : ProviderRef) (w : World) (o : ProviderObj)
    (later : list Op) (ops : list ProviderOp) :
  heap w !! this = Some o ->
  destroyed o = false ->
  let outcome := Provider.destroy this w in
  let w1 := snd outcome in
  (forall e,
      fst outcome = Throw e ->
      heap w1 = heap w /\
      Provider.getHandle this w1 = (Ok (handle o), w1)) /\
  (fst outcome = Ok tt ->
   (exists b w0,
       getBackend w = (Ok b, w0) /\
       Backend.destroyProvider b (handle o) (boundary w) = (Ok tt, boundary w1)) /\
   (forall napi,
       _backend w = Some (createNapiBackend napi) ->
       boundary w1 = boundary w ++ [NativeCall Napi "destroyProvider" [handle o]]) /\
   (forall wasm,
       _backend w = Some (createWasmBackend wasm) ->
       boundary w1 = boundary w ++ [NativeCall Wasm "destroyProvider" [handle o]]) /\
   calls w1 = calls w ++ [DestroyProvider (handle o)] /\
   heap w1 !! this = Some {| handle := handle o; destroyed := true |} /\
   run_ops this ops (exec later w1) = (map after_destroy ops, exec later w1)).
Proof.
  intros E D outcome w1. subst w1 outcome.
  destruct (Provider.destroy this w) as [[[]|e] w1] eqn:R; cbn [fst snd].
  - split; [discriminate|]. intros _.
    destruct (destroy_live this w w1 o E D R) as (b & w0 & tr & G & B & ->).
    pose proof (getBackend_frame _ _ _ G) as (_ & _ & Hc & _ & Hm & _).
    set (w1 := set_heap _ _).
    assert (L : heap w1 !! this = Some {| handle := handle o; destroyed := true |}).
    { cbn. apply list_lookup_insert_eq. eapply lookup_lt_Some; eauto. }
    assert (Sel : forall b', _backend w = Some b' -> b = b').
    { intros b' S. rewrite (getBackend_memo w b' S) in G. congruence. }
    split; [exists b, w0; split; [exact G|exact B]|].
    split; [|split].
    + intros napi S. rewrite (Sel _ S) in B.
      cbn [createNapiBackend Backend.destroyProvider] in B.
      unfold bind, native in B.
      destruct (answer napi _ _ _); cbn in B; [|discriminate B].
      injection B as <-. reflexivity.
    + intros wasm S. rewrite (Sel _ S) in B.
      cbn [createWasmBackend Backend.destroyProvider] in B.
      unfold bind, native in B.
      destruct (answer wasm _ _ _); cbn in B; [|discriminate B].
      injection B as <-. reflexivity.
    + split; [cbn; congruence|]. split; [exact L|].
      destruct (exec_keeps_destroyed later w1 this _ L eq_refl) as (o2 & L2 & D2 & _).
      induction ops as [|[|messages options] ops IH]; cbn.
      * reflexivity.
      * rewrite (destroy_destroyed _ _ _ L2 D2). rewrite IH. reflexivity.
      * rewrite (generate_destroyed _ _ _ messages options L2 D2). rewrite IH. reflexivity.
  - split; [|discriminate]. intros e' _.
    pose proof (destroy_throws this w w1 o e E D R) as Hh.
    split; [exact Hh|]. apply getHandle_live; [rewrite Hh; exact E|exact D].
Qed.

Lemma destroy_idempotent_witness :
  let w := exec [OpCreateProvider openai "gpt-4o" key_only] (initial env_napi) in
  let w1 := snd (Provider.destroy 0 w) in
  let later := [OpCreateProvider anthropic "claude" key_only; OpDestroy 0; OpDestroy 1] in
  let ops := [DoDestroy; DoGenerate hello None; DoDestroy] in
  boundary w1 = boundary w ++ [NativeCall Napi "destroyProvider" [JNum "1"]] /\
  calls w1 = calls w ++ [DestroyProvider (JNum "1")] /\
  heap w1 !! 0 = Some {| handle := JNum "1"; destroyed := true |} /\
  run_ops 0 ops (exec later w1) =
    ([Ok JUndefined; Throw (Error destroyed_message); Ok JUndefined], exec later w1).
Proof.
  intros w w1 later ops.
  destruct (proj2 (destroy_idempotent 0 w {| handle := JNum "1"; destroyed := false |}
                     later ops eq_refl eq_refl) eq_refl)
    as (_ & Bn & _ & C & L & R).
  split; [apply (Bn sample_napi); reflexivity|]. split; [exact C|]. split; [exact L|exact R].
Defined.

(** C1, as stated, fails: when the release throws, [destroy()] is not
    idempotent.  On a NAPI module whose [destroyProvider] throws, the first
    [destroy()] throws, so does every later one, each of them calls
    [backend.destroyProvider] again, and a [generate()] in between reaches
    the backend and resolves. *)
Lemma destroy_not_idempotent_when_release_throws :
  let w := exec [OpCreateProvider openai "gpt-4o" key_only] (initial env_stuck) in
  let outcome := run_ops 0 [DoDestroy; DoDestroy; DoGenerate hello None; DoDestroy] w in
  fst outcome =
    [Throw (Reason (JStr "provider busy")); Throw (Reason (JStr "provider busy"));
     Ok sample_reply; Throw (Reason (JStr "provider busy"))] /\
  calls (snd outcome) =
    calls w ++ [DestroyProvider (JNum "1"); DestroyProvider (JNum "1");
                Generate (JNum "1") hello None None; DestroyProvider (JNum "1")] /\
  boundary (snd outcome) =
    boundary w ++
    [NativeCall Napi "destroyProvider" [JNum "1"];
     NativeCall Napi "destroyProvider" [JNum "1"];
     NativeCall Napi "generate" [JNum "1"; JArr (map message_obj hello); JNull; JNull];
     NativeCall Napi "destroyProvider" [JNum "1"]] /\
  heap (snd outcome) = [{| handle := JNum "1"; destroyed := false |}].
Proof. cbv zeta. repeat split. Qed.

(** ** Use after destroy *)

Lemma footprint_refl (w : World) : footprint w w.
Proof. right. split; [reflexivity|]. eauto. Qed.

Lemma getBackend_failure (w w0 : World) (e : Exn) :
  getBackend w = (Throw e, w0) -> _backend w0 = _backend w /\ heap w0 = heap w.
Proof.
  intros G. pose proof (getBackend_frame _ _ _ G) as (Hh & _).
  revert G. unfold getBackend. destruct (_backend w) eqn:E; [discriminate|].
  destruct (detectBackend w) as [[b|e'] w'] eqn:Ed; [discriminate|].
  apply detectBackend_frame in Ed as (Hb & _). intros [= <- <-]. split; congruence.
Qed.

Lemma getBackend_footprint (w w0 : World) (r : result Backend.t) :
  getBackend w = (r, w0) -> footprint w w0.
Proof.
  destruct r as [b|e]; intros G.
  - left. apply getBackend_frame in G as (_ & _ & _ & _ & _ & S).
    rewrite (S b eq_refl). eauto.
  - right. apply getBackend_failure in G as [-> ->]. eauto.
Qed.

Ltac selected_after_getBackend :=
  match goal with
  | G : getBackend _ = (Ok ?b, _) |- _ =>
      let S := fresh "S" in
      pose proof (getBackend_frame _ _ _ G) as (_ & _ & _ & _ & _ & S);
      specialize (S b eq_refl); left; cbn; rewrite S; eauto
  end.

Lemma perform_footprint (op : Op) (w : World) : footprint w (perform op w).
Proof.
  destruct op; repeat unfold_host; cbn;
    repeat (case_match; cbn in *; simplify_eq; cbn);
    try selected_after_getBackend;
    try (eapply getBackend_footprint; eassumption);
    try apply footprint_refl.
  - destruct (getBackend w) as [r w0] eqn:G. eapply getBackend_footprint; eassumption.
  - left. cbn. eauto.
  - right. split; [reflexivity|]. cbn. intros p o' L D.
    apply lookup_app_Some in L as [L|[_ L]]; [eauto|].
    destruct (p - length (heap w)) as [|n]; cbn in L; [|discriminate].
    injection L as <-. discriminate D.
Qed.

Lemma perform_selected_if_destroyed (op : Op) (w : World) :
  selected_if_destroyed w -> selected_if_destroyed (perform op w).
Proof.
  intros I p o' L D. destruct (perform_footprint op w) as [S|[E F]]; [exact S|].
  rewrite E. destruct (F p o' L D) as (o & L0 & D0). eauto.
Qed.

Lemma reachable_selected_if_destroyed (w : World) :
  reachable w -> selected_if_destroyed w.
Proof.
  intros (env & ops & ->).
  assert (I : selected_if_destroyed (initial env)) by (intros p o L; discriminate L).
  revert I. generalize (initial env). induction ops as [|op ops IH]; intros w I.
  - exact I.
  - apply (IH (perform op w)). apply perform_selected_if_destroyed, I.
Qed.

(** C10.  In any world a process can reach, an agent whose provider has
    been destroyed rejects [run] with the use-after-destroy error, and the
    world is untouched: no call is recorded on the backend, nothing crosses
    to the native module, and no tool implementation runs. *)
Theorem run_after_destroy (agent : Agent.t) (messages : list Message.t)
    (w : World) (o : ProviderObj) :
  reachable w ->
  heap w !! Agent.provider agent = Some o ->
  destroyed o = true ->
  Agent.run agent messages w = (Throw (Error "Provider has been destroyed"), w).
Proof.
  intros R L D.
  destruct (reachable_selected_if_destroyed w R _ _ L D) as [b S].
  unfold Agent.run, bind. rewrite (getBackend_memo w b S). cbv beta iota.
  destruct (existsb _ _); rewrite (getHandle_destroyed _ _ _ L D); reflexivity.
Qed.

Lemma run_after_destroy_witness :
  let w := exec [OpCreateProvider openai "gpt-4o" key_only; OpDestroy 0] (initial env_napi) in
  let agent := createAgent "ag" 0 (Some (options_with [tool_A; tool_B])) in
  Agent.run agent hello w = (Throw (Error "Provider has been destroyed"), w).
Proof.
  intros w agent.
  apply (run_after_destroy agent hello w {| handle := JNum "1"; destroyed := true |}).
  - exists env_napi, [OpCreateProvider openai "gpt-4o" key_only; OpDestroy 0]. reflexivity.
  - reflexivity.
  - reflexivity.
Defined.

(** ** Mode selection *)

Lemma hasExecuteFns_true (tools : list ToolDef.t) :
  existsb Agent.has_execute tools = true <->
  exists t, t ∈ tools /\ is_Some (ToolDef.execute t).
Proof.
  rewrite existsb_exists. split; intros (t & I & E); exists t.
  - apply list_elem_of_In in I. split; [exact I|].
    unfold Agent.has_execute in E. destruct (ToolDef.execute t); [eauto|discriminate].
  - apply list_elem_of_In in I. split; [exact I|].
    unfold Agent.has_execute. destruct E as [fn ->]. reflexivity.
Qed.

Lemma hasExecuteFns_false (tools : list ToolDef.t) :
  existsb Agent.has_execute tools = false <->
  forall t, t ∈ tools -> ToolDef.execute t = None.
Proof.
  split.
  - intros F t I. destruct (ToolDef.execute t) as [fn|] eqn:E; [|reflexivity].
    assert (T : existsb Agent.has_execute tools = true)
      by (apply hasExecuteFns_true; exists t; rewrite E; eauto).
    congruence.
  - intros A. destruct (existsb Agent.has_execute tools) eqn:T; [|reflexivity].
    apply hasExecuteFns_true in T as (t & I & [fn E]). rewrite (A t I) in E. discriminate.
Qed.

(** C2.  With a backend at hand and a live provider, [run] makes exactly
    one call on the backend.  It is [agentRunWithToolExecutor], given the
    executor built from the tool table, exactly when some tool of the table
    carries an [execute]; it is [agentRun] exactly when none does.  Either
    way the schemas passed are those of the one table read at the start of
    the call. *)
Theorem run_selects_mode (agent : Agent.t) (messages : list Message.t)
    (w w1 : World) (b : Backend.t) (h : JsVal) :
  getBackend w = (Ok b, w1) ->
  Provider.getHandle (Agent.provider agent) w1 = (Ok h, w1) ->
  let tools := default [] (AgentOptions.tools (Agent.options agent)) in
  let schemas := map Agent.schema_of tools in
  let outcome := Agent.run agent messages w in
  ((exists t, t ∈ tools /\ is_Some (ToolDef.execute t)) <->
   calls (snd outcome) =
     calls w ++ [AgentRunWithToolExecutor (Agent.name agent) h schemas messages
                   (Agent.options agent)]) /\
  ((forall t, t ∈ tools -> ToolDef.execute t = None) <->
   calls (snd outcome) =
     calls w ++ [AgentRun (Agent.name agent) h schemas messages (Agent.options agent)]) /\
  ((exists t, t ∈ tools /\ is_Some (ToolDef.execute t)) ->
   (fst outcome, boundary (snd outcome)) =
     Backend.agentRunWithToolExecutor b (Agent.name agent) h schemas messages
       (Agent.options agent) (Agent.toolExecutor (Agent.build_executorMap tools))
       (boundary w)) /\
  ((forall t, t ∈ tools -> ToolDef.execute t = None) ->
   (fst outcome, boundary (snd outcome)) =
     Backend.agentRun b (Agent.name agent) h schemas messages (Agent.options agent)
       (boundary w)).
Proof.
  intros G Hh tools schemas outcome.
  pose proof (getBackend_frame _ _ _ G) as (_ & _ & Hc & Hb & _).
  rewrite <- hasExecuteFns_true, <- hasExecuteFns_false.
  subst outcome. unfold Agent.run, bind. rewrite G. cbv beta iota.
  fold tools. fold schemas.
  destruct (existsb Agent.has_execute tools) eqn:T; rewrite Hh; cbv beta iota;
    unfold invoke; rewrite Hb.
  - destruct (Backend.agentRunWithToolExecutor _ _ _ _ _ _ _ _) as [r tr]. cbn.
    rewrite Hc. repeat split; try discriminate; try reflexivity.
    intros E. apply app_inv_head in E. discriminate E.
  - destruct (Backend.agentRun _ _ _ _ _ _ _) as [r tr]. cbn.
    rewrite Hc. repeat split; try discriminate; try reflexivity.
    intros E. apply app_inv_head in E. discriminate E.
Qed.

Lemma run_selects_mode_witness :
  let w := exec [OpCreateProvider openai "gpt-4o" key_only] (initial env_napi) in
  let mixed := createAgent "ag" 0 (Some (options_with [tool_B; tool_A; tool_B])) in
  let plain := createAgent "ag" 0 (Some (options_with [tool_B; tool_B])) in
  calls (snd (Agent.run mixed hello w)) =
    calls w ++ [AgentRunWithToolExecutor "ag" (JNum "1")
                  (map Agent.schema_of [tool_B; tool_A; tool_B]) hello
                  (options_with [tool_B; tool_A; tool_B])] /\
  calls (snd (Agent.run plain hello w)) =
    calls w ++ [AgentRun "ag" (JNum "1") (map Agent.schema_of [tool_B; tool_B]) hello
                  (options_with [tool_B; tool_B])].
Proof.
  intros w mixed plain. split.
  - apply (proj1 (run_selects_mode mixed hello w w (createNapiBackend sample_napi)
                    (JNum "1") eq_refl eq_refl)).
    exists tool_A. split; [|eexists; reflexivity].
    apply list_elem_of_In. right. left. reflexivity.
  - apply (proj1 (proj2 (run_selects_mode plain hello w w (createNapiBackend sample_napi)
                           (JNum "1") eq_refl eq_refl))).
    intros t I. apply list_elem_of_In in I.
    destruct I as [<-|[<-|[]]]; reflexivity.
Defined.

(** ** The tool bridge *)

Lemma executorMap_acc_None (tools : list ToolDef.t) (m : gmap string HostFn) (k : string) :
  foldl (fun m t =>
           match ToolDef.execute t with
           | Some fn => <[ToolDef.name t := fn]> m
           | None => m
           end) m tools !! k = None <->
  m !! k = None /\
  forall t, t ∈ tools -> ToolDef.name t = k -> ToolDef.execute t = None.
Proof.
  revert m. induction tools as [|t tools IH]; intros m; cbn.
  - split; [intros E; split; [exact E|]|intros [E _]; exact E].
    intros t I. apply elem_of_nil in I as [].
  - rewrite IH. split.
    + intros [E A]. destruct (ToolDef.execute t) as [fn|] eqn:X.
      * destruct (decide (ToolDef.name t = k)) as [Eq|Ne].
        -- subst k. rewrite lookup_insert_eq in E. discriminate E.
        -- rewrite lookup_insert_ne in E by exact Ne. split; [exact E|].
           intros t' I. apply elem_of_cons in I as [->|I]; [congruence|auto].
      * split; [exact E|].
        intros t' I. apply elem_of_cons in I as [->|I]; [auto|auto].
    + intros [E A]. split.
      * destruct (ToolDef.execute t) as [fn|] eqn:X; [|exact E].
        destruct (decide (ToolDef.name t = k)) as [Eq|Ne].
        -- rewrite (A t (list_elem_of_here _ _) Eq) in X. discriminate X.
        -- rewrite lookup_insert_ne by exact Ne. exact E.
      * intros t' I. apply A. apply list_elem_of_further, I.
Qed.

Lemma executorMap_acc_Some (tools : list ToolDef.t) (m : gmap string HostFn)
    (k : string) (fn : HostFn) :
  foldl (fun m t =>
           match ToolDef.execute t with
           | Some fn => <[ToolDef.name t := fn]> m
           | None => m
           end) m tools !! k = Some fn ->
  m !! k = Some fn \/
  exists t, t ∈ tools /\ ToolDef.name t = k /\ ToolDef.execute t = Some fn.
Proof.
  revert m. induction tools as [|t tools IH]; intros m; cbn.
  - auto.
  - intros E. apply IH in E as [E|(t' & I & Hn & He)].
    + destruct (ToolDef.execute t) as [fn'|] eqn:X; [|auto].
      destruct (decide (ToolDef.name t = k)) as [Eq|Ne].
      * subst k. rewrite lookup_insert_eq in E. injection E as ->.
        right. exists t. split; [apply list_elem_of_here|auto].
      * rewrite lookup_insert_ne in E by exact Ne. auto.
    + right. exists t'. split; [apply list_elem_of_further, I|auto].
Qed.

Lemma build_executorMap_None (tools : list ToolDef.t) (k : string) :
  Agent.build_executorMap tools !! k = None <->
  forall t, t ∈ tools -> ToolDef.name t = k -> ToolDef.execute t = None.
Proof.
  unfold Agent.build_executorMap. rewrite executorMap_acc_None.
  rewrite lookup_empty. tauto.
Qed.

Lemma build_executorMap_Some (tools : list ToolDef.t) (k : string) (fn : HostFn) :
  Agent.build_executorMap tools !! k = Some fn ->
  exists t, t ∈ tools /\ ToolDef.name t = k /\ ToolDef.execute t = Some fn.
Proof.
  unfold Agent.build_executorMap. intros E.
  apply executorMap_acc_Some in E as [E|E]; [|exact E].
  rewrite lookup_empty in E. discriminate E.
Qed.

(** An envelope that names a tool is an object, so its [args] can be read. *)
Lemma named_envelope_has_args (parsed : JsVal) (tool : string) :
  get_prop parsed "tool" = Ok (JStr tool) ->
  exists args, get_prop parsed "args" = Ok args.
Proof. destruct parsed; cbn; try discriminate; eauto. Qed.

(** C3.  When the envelope names a tool for which the table holds no
    [execute] (the name is absent, or every entry of that name lacks one),
    the executor rejects with the error that names the tool, and the
    boundary trace is unchanged: no host implementation is called and
    nothing is retried.  The engine that issued the envelope is resumed at
    once with that rejection. *)
Theorem unresolved_tool_fails (tools : list ToolDef.t) (callJson : string)
    (parsed : JsVal) (tool : string) :
  JSON_parse callJson = Ok parsed ->
  get_prop parsed "tool" = Ok (JStr tool) ->
  (forall t, t ∈ tools -> ToolDef.name t = tool -> ToolDef.execute t = None) ->
  let toolExecutor := Agent.toolExecutor (Agent.build_executorMap tools) in
  let unresolved := Error ("No execute function for tool: " +:+ tool) in
  (forall tr, toolExecutor callJson tr = (Throw unresolved, tr)) /\
  (forall resume tr,
      drive (CallTool callJson resume) toolExecutor tr =
      drive (resume (Throw unresolved)) toolExecutor tr).
Proof.
  intros P T A toolExecutor unresolved.
  assert (X : forall tr, toolExecutor callJson tr = (Throw unresolved, tr)).
  { intros tr. subst toolExecutor. unfold Agent.toolExecutor, bind, lift.
    rewrite P, T. destruct (named_envelope_has_args parsed tool T) as [args ->].
    cbn. apply build_executorMap_None in A. rewrite A. reflexivity. }
  split; [exact X|].
  intros resume tr.
  change (drive (CallTool callJson resume) toolExecutor tr)
    with (let '(r, tr') := toolExecutor callJson tr in drive (resume r) toolExecutor tr').
  rewrite X. reflexivity.
Qed.

Lemma unresolved_tool_fails_witness :
  let toolExecutor := Agent.toolExecutor (Agent.build_executorMap [tool_A; tool_B]) in
  toolExecutor (envelope "B" (JObj [])) [] =
    (Throw (Error "No execute function for tool: B"), []) /\
  toolExecutor (envelope "C" (JObj [])) [] =
    (Throw (Error "No execute function for tool: C"), []).
Proof.
  intros toolExecutor. split.
  - apply (unresolved_tool_fails [tool_A; tool_B] (envelope "B" (JObj []))
             (JObj [("tool", JStr "B"); ("args", JObj [])]) "B");
      [reflexivity|reflexivity|].
    intros t I N. apply list_elem_of_In in I.
    destruct I as [<-|[<-|[]]]; [discriminate N|reflexivity].
  - apply (unresolved_tool_fails [tool_A; tool_B] (envelope "C" (JObj []))
             (JObj [("tool", JStr "C"); ("args", JObj [])]) "C");
      [reflexivity|reflexivity|].
    intros t I N. apply list_elem_of_In in I.
    destruct I as [<-|[<-|[]]]; discriminate N.
Defined.

(** The spec's scenario for C3: tools A (with [execute]) and B (without);
    the engine asks for B; the run rejects with the error naming B, and no
    implementation has run. *)
Example run_rejects_unresolved_B :
  let w := exec [OpCreateProvider openai "gpt-4o" key_only] (initial env_asking_B) in
  let agent := createAgent "ag" 0 (Some (options_with [tool_A; tool_B])) in
  fst (Agent.run agent hello w) = Throw (Error "No execute function for tool: B") /\
  tool_runs (boundary (snd (Agent.run agent hello w))) = [].
Proof. split; vm_compute; reflexivity. Qed.

(** C9.  When the envelope names a tool for which the executor map holds
    an implementation [fn] (the [execute] of a table entry of that name),
    the executor parses the envelope, calls [fn] once, on the parsed
    [args], and resolves to [JSON.stringify] of what [fn] resolved to.
    In the spec's scenario (the engine requests that tool once, then gives
    its final answer) the run resolves to an [AgentResult] whose [steps]
    is 2 and whose [text] is the final answer, and the one host execution
    recorded is that call. *)
Theorem tool_call_bridged (tools : list ToolDef.t) (callJson : string)
    (parsed args result : JsVal) (tool : string) (fn : HostFn) :
  JSON_parse callJson = Ok parsed ->
  get_prop parsed "tool" = Ok (JStr tool) ->
  get_prop parsed "args" = Ok args ->
  Agent.build_executorMap tools !! tool = Some fn ->
  fn args = Ok result ->
  (exists t, t ∈ tools /\ ToolDef.name t = tool /\ ToolDef.execute t = Some fn) /\
  (forall tr,
      Agent.toolExecutor (Agent.build_executorMap tools) callJson tr =
        (Ok (JSON_stringify result), tr ++ [ToolExec tool args])) /\
  (forall agent messages w napi final h,
      AgentOptions.tools (Agent.options agent) = Some tools ->
      _backend w = Some (createNapiBackend napi) ->
      (forall tr a,
          run_engine napi tr a = scripted_engine [RequestTool callJson; FinalAnswer final] 0) ->
      Provider.getHandle (Agent.provider agent) w = (Ok h, w) ->
      let outcome := Agent.run agent messages w in
      fst outcome =
        Ok (JObj [("text", JStr final);
                  ("steps", JNum "2");
                  ("usage", JObj [("inputTokens", JNum "0"); ("outputTokens", JNum "0")]);
                  ("structuredOutput", JUndefined)]) /\
      boundary (snd outcome) =
        boundary w ++
        [NativeCall Napi "agentRunWithToolExecutor"
           (napi_agent_args (Agent.name agent) h (map Agent.schema_of tools) messages
              (Agent.options agent));
         ToolExec tool args]).
Proof.
  intros P T A L R.
  assert (X : forall tr,
             Agent.toolExecutor (Agent.build_executorMap tools) callJson tr =
               (Ok (JSON_stringify result), tr ++ [ToolExec tool args])).
  { intros tr. unfold Agent.toolExecutor, bind, lift. rewrite P, T, A. cbn.
    rewrite L. unfold Agent.call_host. rewrite R. reflexivity. }
  pose proof (build_executorMap_Some tools tool fn L) as Ex.
  split; [exact Ex|]. split; [exact X|].
  intros agent messages w napi final h Ht S E Hh outcome.
  assert (B : existsb Agent.has_execute tools = true).
  { apply hasExecuteFns_true. destruct Ex as (t & I & _ & He).
    exists t. rewrite He. eauto. }
  subst outcome. unfold Agent.run, bind. rewrite (getBackend_memo w _ S).
  cbv beta iota. rewrite Ht. cbn [default from_option id]. rewrite B, Hh. cbv beta iota.
  unfold invoke. cbn [createNapiBackend Backend.agentRunWithToolExecutor].
  unfold bind. rewrite E. cbn [scripted_engine drive]. rewrite X.
  cbn. rewrite <- app_assoc. split; reflexivity.
Qed.

Lemma tool_call_bridged_witness :
  let callJson := envelope "A" (JObj [("q", JStr "6x7")]) in
  let w := exec [OpCreateProvider openai "gpt-4o" key_only] (initial env_napi) in
  let agent := createAgent "ag" 0 (Some (options_with [tool_A; tool_B])) in
  Agent.toolExecutor (Agent.build_executorMap [tool_A; tool_B]) callJson [] =
    (Ok (JSON_stringify (JStr "42")), [ToolExec "A" (JObj [("q", JStr "6x7")])]) /\
  fst (Agent.run agent hello w) =
    Ok (JObj [("text", JStr "It is 42.");
              ("steps", JNum "2");
              ("usage", JObj [("inputTokens", JNum "0"); ("outputTokens", JNum "0")]);
              ("structuredOutput", JUndefined)]) /\
  tool_runs (boundary (snd (Agent.run agent hello w))) =
    [ToolExec "A" (JObj [("q", JStr "6x7")])].
Proof.
  intros callJson w agent.
  pose proof (tool_call_bridged [tool_A; tool_B] callJson
                (JObj [("tool", JStr "A"); ("args", JObj [("q", JStr "6x7")])])
                (JObj [("q", JStr "6x7")]) (JStr "42") "A" (fun _ => Ok (JStr "42"))
                eq_refl eq_refl eq_refl eq_refl eq_refl) as (_ & X & S).
  split; [apply X|].
  destruct (S agent hello w sample_napi "It is 42." (JNum "1")) as [R B];
    try reflexivity.
  split; [exact R|]. rewrite B. reflexivity.
Defined.

(** ** The Envelope strategy has no callback channel *)

(** C4.  On the WASM backend [agentRunWithToolExecutor] is [agentRun] on
    the same arguments, whatever the executor.  So a [run] there, whatever
    its tools carry, sends one [agentRun] message to the module, runs no
    host implementation, and settles as the reply decides: it resolves to
    the parsed reply whenever the module answers with JSON text.  The
    outcome is the one of the same agent with all [execute] removed. *)
Theorem wasm_ignores_executor (wasm : NativeModule) :
  (forall name h tools messages options toolExecutor,
      Backend.agentRunWithToolExecutor (createWasmBackend wasm)
        name h tools messages options toolExecutor =
      Backend.agentRun (createWasmBackend wasm) name h tools messages options) /\
  (forall agent messages w h,
      _backend w = Some (createWasmBackend wasm) ->
      Provider.getHandle (Agent.provider agent) w = (Ok h, w) ->
      let outcome := Agent.run agent messages w in
      let sent := [JStr (Agent.name agent); h; wasm_messages messages;
                   JSON_stringify (wasm_agent_options (Agent.options agent))] in
      boundary (snd outcome) = boundary w ++ [NativeCall Wasm "agentRun" sent] /\
      tool_runs (boundary (snd outcome)) = tool_runs (boundary w) /\
      fst outcome =
        match answer wasm (boundary w) "agentRun" sent with
        | Ok json => JSON_parse (ToString json)
        | Throw e => Throw e
        end /\
      fst (Agent.run (without_execute agent) messages w) = fst outcome /\
      boundary (snd (Agent.run (without_execute agent) messages w)) =
        boundary (snd outcome)).
Proof.
  split; [reflexivity|].
  intros agent messages w h S Hh outcome sent.
  assert (Hh' : Provider.getHandle (Agent.provider (without_execute agent)) w = (Ok h, w))
    by exact Hh.
  assert (R : forall a : Agent.t,
             Provider.getHandle (Agent.provider a) w = (Ok h, w) ->
             let out := Agent.run a messages w in
             let snt := [JStr (Agent.name a); h; wasm_messages messages;
                         JSON_stringify (wasm_agent_options (Agent.options a))] in
             boundary (snd out) = boundary w ++ [NativeCall Wasm "agentRun" snt] /\
             fst out = match answer wasm (boundary w) "agentRun" snt with
                       | Ok json => JSON_parse (ToString json)
                       | Throw e => Throw e
                       end).
  { intros a Ha. cbv zeta. unfold Agent.run, bind. rewrite (getBackend_memo w _ S).
    cbv beta iota.
    destruct (existsb Agent.has_execute _); rewrite Ha; cbv beta iota;
      unfold invoke; cbn [createWasmBackend Backend.agentRunWithToolExecutor Backend.agentRun];
      unfold wasm_agentRun, bind, native, lift;
      destruct (answer wasm _ _ _) as [json|e]; cbn; split; reflexivity. }
  destruct (R agent Hh) as [B F]. destruct (R (without_execute agent) Hh') as [B' F'].
  subst outcome sent. repeat split.
  - exact B.
  - rewrite B. unfold tool_runs. rewrite List.filter_app. cbn. apply app_nil_r.
  - exact F.
  - rewrite F, F'. reflexivity.
  - rewrite B, B'. reflexivity.
Qed.

Lemma wasm_ignores_executor_witness :
  let w := exec [OpCreateProvider openai "gpt-4o" key_only] (initial env_wasm) in
  let agent := createAgent "ag" 0 (Some (options_with [tool_A; tool_B])) in
  let outcome := Agent.run agent hello w in
  tool_runs (boundary (snd outcome)) = [] /\
  fst outcome =
    Ok (JObj [("text", JStr "done"); ("steps", JNum "1");
              ("usage", JObj [("inputTokens", JNum "3"); ("outputTokens", JNum "5")])]).
Proof.
  intros w agent outcome.
  destruct (proj2 (wasm_ignores_executor sample_wasm) agent hello w (JNum "1")
              eq_refl eq_refl) as (_ & T & F & _).
  split; [exact T|exact F].
Defined.

(** ** Marshalling *)

Lemma napi_agent_result_pure (reply : JsVal) (tr : Trace) :
  snd (napi_agent_result reply tr) = tr.
Proof.
  unfold napi_agent_result, bind, lift, ret.
  repeat (destruct (get_prop reply _); [|reflexivity]). reflexivity.
Qed.

Lemma drive_appends (e : Engine) (toolExecutor : string -> N JsVal) :
  (forall callJson, appends_only (toolExecutor callJson)) ->
  appends_only (drive e toolExecutor).
Proof.
  intros Mono. induction e as [r|callJson resume IH]; intros tr.
  - exists []. cbn. symmetry. apply app_nil_r.
  - cbn [drive]. destruct (Mono callJson tr) as [rest1 E1].
    destruct (toolExecutor callJson tr) as [r tr1]. cbn in E1. subst tr1.
    destruct (IH r (tr ++ rest1)) as [rest2 E2].
    exists (rest1 ++ rest2). rewrite E2. symmetry. apply app_assoc.
Qed.

Lemma toolExecutor_appends (executorMap : gmap string HostFn) (callJson : string) :
  appends_only (Agent.toolExecutor executorMap callJson).
Proof.
  intros tr. unfold Agent.toolExecutor, bind, lift, throw, ret, Agent.call_host.
  destruct (JSON_parse callJson) as [parsed|e]; [|exists []; symmetry; apply app_nil_r].
  destruct (get_prop parsed "tool") as [tool|e]; [|exists []; symmetry; apply app_nil_r].
  destruct (get_prop parsed "args") as [args|e]; [|exists []; symmetry; apply app_nil_r].
  destruct (Agent.executorMap_get executorMap tool) as [fn|];
    [|exists []; symmetry; apply app_nil_r].
  exists [ToolExec (ToString tool) args]. destruct (fn args); reflexivity.
Qed.

(** C7, as stated, fails: on the NAPI backend a provider created with only
    an [apiKey] reaches the native module with [baseUrl], [timeoutMs],
    [maxRetries] and [organization] present and [null], and [generate]
    without options passes [null] for temperature and maxTokens. *)
Lemma napi_absent_field_not_omitted :
  snd (Backend.createProvider (createNapiBackend sample_napi) openai "gpt-4o" key_only []) =
    [NativeCall Napi "createProvider"
       [JStr "openai"; JStr "gpt-4o";
        JObj [("apiKey", JStr "k"); ("baseUrl", JNull); ("timeoutMs", JNull);
              ("maxRetries", JNull); ("organization", JNull)]]] /\
  has_prop (napi_provider_options key_only) "baseUrl" = true /\
  snd (Backend.generate (createNapiBackend sample_napi) (JNum "1") [] None None []) =
    [NativeCall Napi "generate" [JNum "1"; JArr []; JNull; JNull]].
Proof. repeat split. Qed.

(** C7, as the code has it.  On the NAPI backend every call hands the
    native module structured values (objects and arrays, no JSON text), and
    every optional field is always present: it holds the caller's value,
    or [null] when the caller left it out.  This covers the provider
    options, the [parameters] of each tool, the agent options, and the
    temperature and maxTokens of [generate] and [generateWithTools]. *)
Theorem napi_absent_is_null (napi : NativeModule) :
  (forall type model options tr,
      snd (Backend.createProvider (createNapiBackend napi) type model options tr) =
        tr ++ [NativeCall Napi "createProvider"
                 [JStr (ProviderType_text type); JStr model;
                  JObj [("apiKey", JStr (ProviderOptions.apiKey options));
                        ("baseUrl", str_or_null (ProviderOptions.baseUrl options));
                        ("timeoutMs", num_or_null (ProviderOptions.timeoutMs options));
                        ("maxRetries", num_or_null (ProviderOptions.maxRetries options));
                        ("organization", str_or_null (ProviderOptions.organization options))]]]) /\
  (forall handle messages temperature maxTokens tr,
      snd (Backend.generate (createNapiBackend napi) handle messages temperature maxTokens tr) =
        tr ++ [NativeCall Napi "generate"
                 [handle; JArr (map message_obj messages);
                  num_or_null temperature; num_or_null maxTokens]]) /\
  (forall handle messages tools temperature maxTokens tr,
      snd (Backend.generateWithTools (createNapiBackend napi)
             handle messages tools temperature maxTokens tr) =
        tr ++ [NativeCall Napi "generateWithTools"
                 [handle; JArr (map message_obj messages); JArr (map napi_tool tools);
                  num_or_null temperature; num_or_null maxTokens]]) /\
  (forall name h tools messages options tr,
      exists rest,
        snd (Backend.agentRun (createNapiBackend napi) name h tools messages options tr) =
          tr ++ NativeCall Napi "agentRun"
                  [JStr name; h; JArr (map napi_tool tools);
                   JArr (map message_obj messages); napi_agent_options options] :: rest) /\
  (forall name h tools messages options toolExecutor tr,
      (forall callJson, appends_only (toolExecutor callJson)) ->
      exists rest,
        snd (Backend.agentRunWithToolExecutor (createNapiBackend napi)
               name h tools messages options toolExecutor tr) =
          tr ++ NativeCall Napi "agentRunWithToolExecutor"
                  [JStr name; h; JArr (map napi_tool tools);
                   JArr (map message_obj messages); napi_agent_options options] :: rest) /\
  (forall t,
      napi_tool t =
        JObj [("name", JStr (ToolSchema.name t));
              ("description", JStr (ToolSchema.description t));
              ("parameters", val_or_null (ToolSchema.parameters t))]) /\
  (forall options,
      napi_agent_options options =
        JObj [("instructions", str_or_null (AgentOptions.instructions options));
              ("maxSteps", num_or_null (AgentOptions.maxSteps options));
              ("temperature", num_or_null (AgentOptions.temperature options));
              ("topP", num_or_null (AgentOptions.topP options));
              ("maxTokens", num_or_null (AgentOptions.maxTokens options));
              ("seed", num_or_null (AgentOptions.seed options));
              ("stopOnTool", str_or_null (AgentOptions.stopOnTool options));
              ("outputSchema", val_or_null (AgentOptions.outputSchema options))]).
Proof.
  repeat split.
  - intros type model [k [u|] [t|] [r|] [o|]] tr; reflexivity.
  - intros handle messages [t|] [m|] tr; reflexivity.
  - intros handle messages tools [t|] [m|] tr; reflexivity.
  - intros name h tools messages options tr.
    cbn [createNapiBackend Backend.agentRun]. unfold bind, native.
    destruct (answer napi tr _ _) as [reply|e]; [|exists []; reflexivity].
    exists []. rewrite napi_agent_result_pure. reflexivity.
  - intros name h tools messages options toolExecutor tr Mono.
    cbn [createNapiBackend Backend.agentRunWithToolExecutor]. unfold bind.
    set (args := napi_agent_args name h tools messages options).
    set (tr1 := tr ++ [NativeCall Napi "agentRunWithToolExecutor" args]).
    destruct (drive_appends (run_engine napi tr1 args) toolExecutor Mono tr1) as [rest E].
    destruct (drive _ _ tr1) as [[reply|e] tr2]; cbn in E; subst tr2.
    + exists rest. rewrite napi_agent_result_pure. unfold tr1.
      rewrite <- app_assoc. reflexivity.
    + exists rest. unfold tr1. rewrite <- app_assoc. reflexivity.
  - intros [n d [p|]]; [|reflexivity]. destruct p; reflexivity.
  - intros [[i|] [s|] [t|] [p|] [m|] [sd|] [st|] [o|] tl]; try reflexivity;
      destruct o; reflexivity.
Qed.

Lemma napi_absent_is_null_witness :
  exists rest,
    snd (Backend.agentRunWithToolExecutor (createNapiBackend sample_napi)
           "ag" (JNum "1") [Agent.schema_of tool_A] hello (options_with [tool_A])
           (Agent.toolExecutor (Agent.build_executorMap [tool_A])) []) =
      [] ++ NativeCall Napi "agentRunWithToolExecutor"
              [JStr "ag"; JNum "1"; JArr (map napi_tool [Agent.schema_of tool_A]);
               JArr (map message_obj hello); napi_agent_options (options_with [tool_A])]
            :: rest.
Proof.
  apply (proj1 (proj2 (proj2 (proj2 (proj2 (napi_absent_is_null sample_napi)))))).
  intros callJson. apply toolExecutor_appends.
Defined.

Lemma Serialize_JObj (props : list (string * JsVal)) :
  SerializeJSONProperty (JObj props) =
    Some ("{" +:+
          String.concat ","
            (flat_map (fun kv => match SerializeJSONProperty (snd kv) with
                                 | Some t => [QuoteJSONString (fst kv) +:+ ":" +:+ t]
                                 | None => []
                                 end) props) +:+ "}").
Proof. reflexivity. Qed.

(** [JSON.stringify] writes an object as if its [undefined] properties
    were not there. *)
Lemma stringify_written (props : list (string * JsVal)) :
  JSON_stringify (JObj props) = JSON_stringify (JObj (written_props (JObj props))).
Proof.
  unfold JSON_stringify. rewrite !Serialize_JObj. do 4 f_equal.
  cbn [written_props]. induction props as [|[k v] props IH]; [reflexivity|].
  cbn [flat_map List.filter snd fst]. destruct (is_undefined v) eqn:U.
  - destruct v; try discriminate U. cbn. exact IH.
  - cbn [negb flat_map snd fst]. rewrite IH. reflexivity.
Qed.

(** C8, as stated, fails: on the WASM backend [agentRun] with a seed and a
    tool passes four arguments, of which the options text is [{}]: it
    holds no sentinel for the absent fields, no seed and no tool schema;
    and [generate] without options passes [undefined], not a sentinel. *)
Lemma wasm_message_without_sentinels :
  snd (Backend.agentRun (createWasmBackend sample_wasm) "ag" (JNum "1")
         [Agent.schema_of tool_A] hello (seed_only "42" [tool_A]) []) =
    [NativeCall Wasm "agentRun" [JStr "ag"; JNum "1"; wasm_messages hello; JStr "{}"]] /\
  snd (Backend.generate (createWasmBackend sample_wasm) (JNum "1") hello None None []) =
    [NativeCall Wasm "generate" [JNum "1"; wasm_messages hello; JUndefined; JUndefined]].
Proof. split; reflexivity. Qed.

(** C8, as the code has it.  On the WASM backend [agentRun] passes the
    name and the handle as they are, and two JSON texts: the messages, and
    an options object.  In that text each of instructions, maxSteps,
    temperature, topP, maxTokens, stopOnTool and outputSchema is written
    exactly when the caller gave it; an absent one is left out, no
    sentinel is written.  The tool schemas have no influence on the call.
    [generate] passes the messages as JSON text and temperature and
    maxTokens as they are, [undefined] when absent; [createProvider]
    passes type, model, apiKey and baseUrl as they are. *)
Theorem wasm_envelope_shape (wasm : NativeModule) :
  (forall name h tools messages options tr,
      snd (Backend.agentRun (createWasmBackend wasm) name h tools messages options tr) =
        tr ++ [NativeCall Wasm "agentRun"
                 [JStr name; h;
                  JSON_stringify (JArr (map message_value messages));
                  JSON_stringify (JObj (written_props (wasm_agent_options options)))]]) /\
  (forall options,
      let written := JObj (written_props (wasm_agent_options options)) in
      has_prop written "instructions" = present (AgentOptions.instructions options) /\
      has_prop written "maxSteps" = present (AgentOptions.maxSteps options) /\
      has_prop written "temperature" = present (AgentOptions.temperature options) /\
      has_prop written "topP" = present (AgentOptions.topP options) /\
      has_prop written "maxTokens" = present (AgentOptions.maxTokens options) /\
      has_prop written "stopOnTool" = present (AgentOptions.stopOnTool options) /\
      has_prop written "outputSchema" =
        match AgentOptions.outputSchema options with
        | Some v => negb (is_undefined v)
        | None => false
        end /\
      get_prop written "instructions" = Ok (opt_str (AgentOptions.instructions options)) /\
      get_prop written "maxSteps" = Ok (opt_num (AgentOptions.maxSteps options)) /\
      get_prop written "temperature" = Ok (opt_num (AgentOptions.temperature options)) /\
      get_prop written "topP" = Ok (opt_num (AgentOptions.topP options)) /\
      get_prop written "maxTokens" = Ok (opt_num (AgentOptions.maxTokens options)) /\
      get_prop written "stopOnTool" = Ok (opt_str (AgentOptions.stopOnTool options)) /\
      get_prop written "outputSchema" = Ok (opt_val (AgentOptions.outputSchema options))) /\
  (forall name h tools tools' messages options tr,
      Backend.agentRun (createWasmBackend wasm) name h tools messages options tr =
      Backend.agentRun (createWasmBackend wasm) name h tools' messages options tr) /\
  (forall handle messages temperature maxTokens tr,
      snd (Backend.generate (createWasmBackend wasm) handle messages temperature maxTokens tr) =
        tr ++ [NativeCall Wasm "generate"
                 [handle; JSON_stringify (JArr (map message_value messages));
                  opt_num temperature; opt_num maxTokens]]) /\
  (forall type model options tr,
      snd (Backend.createProvider (createWasmBackend wasm) type model options tr) =
        tr ++ [NativeCall Wasm "createProvider"
                 [JStr (ProviderType_text type); JStr model;
                  JStr (ProviderOptions.apiKey options);
                  opt_str (ProviderOptions.baseUrl options)]]).
Proof.
  split; [|split; [|split; [|split]]].
  - intros name h tools messages options tr.
    assert (E : JSON_stringify (wasm_agent_options options) =
                JSON_stringify (JObj (written_props (wasm_agent_options options))))
      by (unfold wasm_agent_options; apply stringify_written).
    rewrite <- E.
    cbn [createWasmBackend Backend.agentRun]. unfold wasm_agentRun, bind, native, lift.
    destruct (answer wasm tr _ _); reflexivity.
  - intros [[i|] [s|] [t|] [p|] [m|] sd [st|] [o|] tl]; cbv zeta;
      try (repeat split; reflexivity);
      destruct o; repeat split; reflexivity.
  - reflexivity.
  - intros handle messages [t|] [m|] tr;
      cbn [createWasmBackend Backend.generate]; unfold bind, native, lift;
      destruct (answer wasm tr _ _); reflexivity.
  - intros type model [k [u|] t r o] tr; reflexivity.
Qed.

(** ** More on provider objects *)

Lemma perform_heap (op : Op) (w : World) (p : ProviderRef) (o : ProviderObj) :
  heap w !! p = Some o ->
  exists o',
    heap (perform op w) !! p = Some o' /\ handle o' = handle o /\
    (destroyed o' = destroyed o \/ (op = OpDestroy p /\ destroyed o' = true)).
Proof.
  intros L.
  assert (K : forall w', heap w' = heap w ->
              exists o', heap w' !! p = Some o' /\ handle o' = handle o /\
                         (destroyed o' = destroyed o \/ (op = OpDestroy p /\ destroyed o' = true))).
  { intros w' ->. eauto. }
  assert (A : forall x, exists o', (heap w ++ [x]) !! p = Some o' /\ handle o' = handle o /\
                         (destroyed o' = destroyed o \/ (op = OpDestroy p /\ destroyed o' = true))).
  { intros x. exists o. rewrite lookup_app_l by (eapply lookup_lt_Some; eassumption). auto. }
  destruct op; repeat unfold_host; cbn;
    repeat (case_match; cbn in *; simplify_eq; cbn);
    heap_after_getBackend;
    try (apply K; congruence); try apply A.
  - destruct (getBackend w) as [r w0] eqn:G. apply K. cbn.
    apply getBackend_frame in G as (Hh & _). exact Hh.
  - destruct (decide (this = p)) as [->|Ne].
    + eexists. rewrite list_lookup_insert_eq by (eapply lookup_lt_Some; eassumption).
      split; [reflexivity|]. split; [cbn; congruence|]. right. auto.
    + exists o. rewrite list_lookup_insert_ne by exact Ne. auto.
Qed.

(** X1.  Whatever the process calls, a provider object stays where it is:
    its reference keeps pointing at it, its handle never changes, a
    destroyed provider is never revived, and a live one can only have
    become destroyed if [destroy()] was called on that very provider. *)
Theorem providers_persist (ops : list Op) (w : World) (p : ProviderRef) (o : ProviderObj) :
  heap w !! p = Some o ->
  exists o',
    heap (exec ops w) !! p = Some o' /\
    handle o' = handle o /\
    (destroyed o = true -> destroyed o' = true) /\
    (destroyed o = false -> destroyed o' = true -> In (OpDestroy p) ops).
Proof.
  revert w o. induction ops as [|op ops IH]; intros w o L.
  - exists o. repeat split; auto. congruence.
  - destruct (perform_heap op w p o L) as (o1 & L1 & H1 & C1).
    destruct (IH (perform op w) o1 L1) as (o2 & L2 & H2 & M2 & F2).
    exists o2. split; [exact L2|]. split; [congruence|]. split.
    + intros D. apply M2. destruct C1 as [E|[_ E]]; congruence.
    + intros D0 D2. destruct C1 as [E|[-> E]].
      * right. apply F2; congruence.
      * left. reflexivity.
Qed.

Lemma providers_persist_witness :
  let w := exec [OpCreateProvider openai "gpt-4o" key_only;
                 OpCreateProvider anthropic "claude" key_only] (initial env_napi) in
  let ops := [OpDestroy 1; OpGenerate 0 hello None; OpSetBackend test_double] in
  exists o',
    heap (exec ops w) !! 0 = Some o' /\
    handle o' = JNum "1" /\
    (false = true -> destroyed o' = true) /\
    (false = false -> destroyed o' = true -> In (OpDestroy 0) ops).
Proof.
  intros w ops.
  apply (providers_persist ops w 0 {| handle := JNum "1"; destroyed := false |}).
  reflexivity.
Defined.

(** X2.  When a backend is at hand and its [createProvider] returns a
    handle, the factory returns a fresh reference to a provider that is
    not destroyed and holds exactly that handle ([getHandle] returns it);
    one [createProvider] call is recorded and the providers that existed
    before are untouched. *)
Theorem createProvider_allocates (type : ProviderType) (model : string)
    (options : ProviderOptions.t) (w w0 : World) (b : Backend.t) (h : JsVal) (tr : Trace) :
  getBackend w = (Ok b, w0) ->
  Backend.createProvider b type model options (boundary w) = (Ok h, tr) ->
  let this := length (heap w) in
  let outcome := createProvider type model options w in
  fst outcome = Ok this /\
  heap (snd outcome) = heap w ++ [{| handle := h; destroyed := false |}] /\
  calls (snd outcome) = calls w ++ [CreateProvider type model options] /\
  boundary (snd outcome) = tr /\
  Provider.getHandle this (snd outcome) = (Ok h, snd outcome) /\
  (forall p o, heap w !! p = Some o -> heap (snd outcome) !! p = Some o).
Proof.
  intros G C this outcome.
  pose proof (getBackend_frame _ _ _ G) as (Hh & _ & Hc & Hb & _).
  subst outcome this. unfold createProvider, bind. rewrite G. cbv beta iota.
  unfold invoke. rewrite Hb, C. cbn. rewrite !Hh. rewrite !Hc.
  assert (L : (heap w ++ [{| handle := h; destroyed := false |}]) !! length (heap w)
              = Some {| handle := h; destroyed := false |}).
  { rewrite lookup_app_r by reflexivity. rewrite Nat.sub_diag. reflexivity. }
  repeat split.
  - unfold Provider.getHandle, deref, bind.
    cbn [heap set_heap]. unfold ProviderRef. rewrite L. reflexivity.
  - intros p o L0. apply lookup_app_l_Some. exact L0.
Qed.

Lemma createProvider_allocates_witness :
  let w := exec [OpCreateProvider openai "gpt-4o" key_only] (initial env_napi) in
  let outcome := createProvider anthropic "claude" key_only w in
  fst outcome = Ok 1 /\
  heap (snd outcome) = heap w ++ [{| handle := JNum "1"; destroyed := false |}] /\
  Provider.getHandle 1 (snd outcome) = (Ok (JNum "1"), snd outcome).
Proof.
  intros w outcome.
  destruct (createProvider_allocates anthropic "claude" key_only w w
              (createNapiBackend sample_napi) (JNum "1")
              (boundary w ++ [NativeCall Napi "createProvider"
                                [JStr "anthropic"; JStr "claude";
                                 napi_provider_options key_only]])
              eq_refl eq_refl) as (R & Hh & _ & _ & Gh & _).
  auto.
Defined.

Lemma getBackend_none (w : World) :
  _backend w = None ->
  installed w napi_package = None ->
  installed w wasm_package = None ->
  getBackend w =
    (Throw (Error no_backend_message),
     add_probe wasm_package (add_probe napi_package w)).
Proof.
  intros S E1 E2. unfold getBackend, detectBackend, require. rewrite S, E1. cbn.
  rewrite E2. reflexivity.
Qed.

(** X3.  When no backend is memoized and neither package loads, every
    entry point that needs the backend fails with the configuration
    error: [createProvider], [generate] and [destroy] on a live provider,
    and [run].  None of them records a backend call, crosses the boundary,
    creates a provider or marks one destroyed. *)
Theorem no_backend_rejects (w : World) :
  _backend w = None ->
  installed w napi_package = None ->
  installed w wasm_package = None ->
  let untouched (w' : World) :=
    heap w' = heap w /\ calls w' = calls w /\ boundary w' = boundary w /\
    _backend w' = None in
  (forall type model options,
      fst (createProvider type model options w) = Throw (Error no_backend_message) /\
      untouched (snd (createProvider type model options w))) /\
  (forall this o messages options,
      heap w !! this = Some o -> destroyed o = false ->
      fst (Provider.generate this messages options w) = Throw (Error no_backend_message) /\
      untouched (snd (Provider.generate this messages options w))) /\
  (forall this o,
      heap w !! this = Some o -> destroyed o = false ->
      fst (Provider.destroy this w) = Throw (Error no_backend_message) /\
      untouched (snd (Provider.destroy this w))) /\
  (forall agent messages,
      fst (Agent.run agent messages w) = Throw (Error no_backend_message) /\
      untouched (snd (Agent.run agent messages w))).
Proof.
  intros S E1 E2 untouched.
  pose proof (getBackend_none w S E1 E2) as G.
  subst untouched. cbv beta.
  split; [|split; [|split]].
  - intros type model options. unfold createProvider, bind. rewrite G. cbn. auto.
  - intros this o messages options L D.
    unfold Provider.generate, deref, bind. rewrite L. cbv beta iota. rewrite D, G. cbn. auto.
  - intros this o L D.
    unfold Provider.destroy, deref, bind. rewrite L. cbv beta iota. rewrite D. cbn [negb].
    cbv beta iota. rewrite G. cbn. auto.
  - intros agent messages. unfold Agent.run, bind. rewrite G. cbn. auto.
Qed.

Lemma no_backend_rejects_witness :
  let w := exec [OpNewProvider (JNum "7")] (initial env_none) in
  fst (Provider.destroy 0 w) = Throw (Error no_backend_message) /\
  heap (snd (Provider.destroy 0 w)) = heap w /\
  fst (Agent.run (createAgent "ag" 0 None) hello w) = Throw (Error no_backend_message).
Proof.
  intros w.
  destruct (no_backend_rejects w eq_refl eq_refl eq_refl) as (_ & _ & Dy & Rn).
  destruct (Dy 0 {| handle := JNum "7"; destroyed := false |} eq_refl eq_refl)
    as (R & Hh & _).
  split; [exact R|]. split; [exact Hh|]. apply Rn.
Defined.

(** X4.  When the release fails (the backend's [destroyProvider] throws),
    [destroy()] throws the same error and does not mark the provider: it
    is still usable, and the next [destroy()] calls the backend again. *)
Theorem destroy_failure_keeps_provider (this : ProviderRef) (w w0 : World)
    (o : ProviderObj) (b : Backend.t) (e : Exn) (tr : Trace) :
  heap w !! this = Some o ->
  destroyed o = false ->
  getBackend w = (Ok b, w0) ->
  Backend.destroyProvider b (handle o) (boundary w) = (Throw e, tr) ->
  let outcome := Provider.destroy this w in
  fst outcome = Throw e /\
  heap (snd outcome) = heap w /\
  Provider.getHandle this (snd outcome) = (Ok (handle o), snd outcome) /\
  calls (snd outcome) = calls w ++ [DestroyProvider (handle o)] /\
  calls (snd (Provider.destroy this (snd outcome))) =
    calls w ++ [DestroyProvider (handle o); DestroyProvider (handle o)].
Proof.
  intros L D G F outcome.
  pose proof (getBackend_frame _ _ _ G) as (Hh & _ & Hc & Hb & _ & S).
  specialize (S b eq_refl).
  assert (O : outcome = (Throw e, add_call (DestroyProvider (handle o)) tr w0)).
  { subst outcome. unfold Provider.destroy, deref, bind. rewrite L. cbv beta iota.
    rewrite D. cbn [negb]. cbv beta iota. rewrite G. cbv beta iota.
    unfold invoke. rewrite Hb, F. reflexivity. }
  rewrite O. cbn [fst snd].
  set (w1 := add_call (DestroyProvider (handle o)) tr w0).
  assert (L1 : heap w1 !! this = Some o) by (cbn; rewrite Hh; exact L).
  split; [reflexivity|]. split; [exact Hh|]. split; [apply getHandle_live; assumption|].
  split; [cbn; rewrite Hc; reflexivity|].
  unfold Provider.destroy, deref, bind. rewrite L1. cbv beta iota.
  rewrite D. cbn [negb]. cbv beta iota.
  rewrite (getBackend_memo w1 b S). cbv beta iota. unfold invoke.
  destruct (Backend.destroyProvider b (handle o) (boundary w1)) as [[[]|e'] tr'];
    cbn; rewrite Hc, <- app_assoc; reflexivity.
Qed.

Lemma destroy_failure_keeps_provider_witness :
  let w := exec [OpSetBackend test_double; OpNewProvider (JNum "7")] (initial env_none) in
  let outcome := Provider.destroy 0 w in
  fst outcome = Throw (Error "double") /\
  heap (snd outcome) = heap w /\
  Provider.getHandle 0 (snd outcome) = (Ok (JNum "7"), snd outcome) /\
  calls (snd outcome) = calls w ++ [DestroyProvider (JNum "7")] /\
  calls (snd (Provider.destroy 0 (snd outcome))) =
    calls w ++ [DestroyProvider (JNum "7"); DestroyProvider (JNum "7")].
Proof.
  intros w outcome.
  apply (destroy_failure_keeps_provider 0 w w {| handle := JNum "7"; destroyed := false |}
           test_double (Error "double") []); reflexivity.
Defined.

(** X5.  On a live provider [generate] makes one [generate] call on the
    backend, with the provider's handle, the messages, and the temperature
    and maxTokens of the options (both absent when no options are given);
    it settles as the backend call does, and whether that call succeeds or
    fails, no provider is created, changed or marked destroyed. *)
Theorem generate_delegates (this : ProviderRef) (w w0 : World) (o : ProviderObj)
    (b : Backend.t) (messages : list Message.t) (options : option GenerateOptions.t) :
  heap w !! this = Some o ->
  destroyed o = false ->
  getBackend w = (Ok b, w0) ->
  let temperature := options ≫= GenerateOptions.temperature in
  let maxTokens := options ≫= GenerateOptions.maxTokens in
  let outcome := Provider.generate this messages options w in
  (fst outcome, boundary (snd outcome)) =
    Backend.generate b (handle o) messages temperature maxTokens (boundary w) /\
  calls (snd outcome) = calls w ++ [Generate (handle o) messages temperature maxTokens] /\
  heap (snd outcome) = heap w /\
  (options = None -> temperature = None /\ maxTokens = None).
Proof.
  intros L D G temperature maxTokens outcome.
  pose proof (getBackend_frame _ _ _ G) as (Hh & _ & Hc & Hb & _).
  subst outcome. unfold Provider.generate, deref, bind. rewrite L. cbv beta iota.
  rewrite D, G. cbv beta iota zeta. unfold invoke. rewrite Hb.
  fold temperature maxTokens.
  destruct (Backend.generate b (handle o) messages temperature maxTokens (boundary w))
    as [r tr].
  cbn. rewrite Hh, Hc.
  split; [reflexivity|]. split; [reflexivity|]. split; [reflexivity|].
  intros E. subst temperature maxTokens. rewrite E. split; reflexivity.
Qed.

Lemma generate_delegates_witness :
  let w := exec [OpCreateProvider openai "gpt-4o" key_only] (initial env_napi) in
  let outcome := Provider.generate 0 hello None w in
  calls (snd outcome) = calls w ++ [Generate (JNum "1") hello None None] /\
  heap (snd outcome) = heap w.
Proof.
  intros w outcome.
  destruct (generate_delegates 0 w w {| handle := JNum "1"; destroyed := false |}
              (createNapiBackend sample_napi) hello None eq_refl eq_refl eq_refl)
    as (_ & C & Hh & _).
  split; [exact C|exact Hh].
Defined.

(** X6.  A failed detection is not memoized.  While nothing is memoized and
    neither package loads, each [getBackend()] throws the configuration
    error and asks for both packages again, NAPI before WASM; [_backend]
    stays empty, so a later [setBackend] is what the next [getBackend()]
    returns. *)
Theorem failed_detection_not_memoized (n : nat) (w : World) :
  _backend w = None ->
  installed w napi_package = None ->
  installed w wasm_package = None ->
  let w' := getBackend_times n w in
  fst (getBackend w') = Throw (Error no_backend_message) /\
  _backend w' = None /\
  probes w' = probes w ++ concat (replicate n [napi_package; wasm_package]) /\
  heap w' = heap w /\ calls w' = calls w /\ boundary w' = boundary w.
Proof.
  intros Sel E1 E2 w'. subst w'.
  assert (I : _backend (getBackend_times n w) = None /\
              installed (getBackend_times n w) = installed w /\
              probes (getBackend_times n w) =
                probes w ++ concat (replicate n [napi_package; wasm_package]) /\
              heap (getBackend_times n w) = heap w /\
              calls (getBackend_times n w) = calls w /\
              boundary (getBackend_times n w) = boundary w).
  { induction n as [|n (Sel' & I' & P' & Hh & Hc & Hb)].
    - cbn. rewrite app_nil_r. repeat split; try assumption; reflexivity.
    - change (getBackend_times (S n) w)
        with (snd (getBackend (getBackend_times n w))).
      rewrite (getBackend_none (getBackend_times n w)) by (rewrite ?I'; assumption).
      cbn [snd _backend installed probes heap calls boundary add_probe].
      rewrite P'. repeat split; try assumption.
      rewrite <- !app_assoc. f_equal.
      replace (S n) with (n + 1) by apply Nat.add_1_r.
      rewrite replicate_add, concat_app. cbn. reflexivity. }
  destruct I as (Sel' & I' & P' & Hh & Hc & Hb).
  split; [|auto 10].
  rewrite (getBackend_none (getBackend_times n w)) by (rewrite ?I'; assumption).
  reflexivity.
Qed.

Lemma failed_detection_not_memoized_witness :
  let w' := getBackend_times 2 (initial env_none) in
  fst (getBackend w') = Throw (Error no_backend_message) /\
  _backend w' = None /\
  probes w' = [napi_package; wasm_package; napi_package; wasm_package].
Proof.
  intros w'.
  destruct (failed_detection_not_memoized 2 (initial env_none) eq_refl eq_refl eq_refl)
    as (F & S & P & _).
  split; [exact F|]. split; [exact S|exact P].
Defined.

(** ** More on the tool bridge *)


Lemma executorMap_acc_skip (tools : list ToolDef.t) (m : gmap string HostFn) (k : string) :
  (forall t, t ∈ tools -> ToolDef.name t = k -> ToolDef.execute t = None) ->
  foldl (fun m t =>
           match ToolDef.execute t with
           | Some fn => <[ToolDef.name t := fn]> m
           | None => m
           end) m tools !! k = m !! k.
Proof.
  revert m. induction tools as [|t tools IH]; intros m A; cbn; [reflexivity|].
  rewrite IH by (intros t' I; apply A, list_elem_of_further, I).
  destruct (ToolDef.execute t) as [fn|] eqn:X; [|reflexivity].
  destruct (decide (ToolDef.name t = k)) as [Eq|Ne].
  - rewrite (A t (list_elem_of_here _ _) Eq) in X. discriminate X.
  - apply lookup_insert_ne, Ne.
Qed.

Lemma build_executorMap_last (before after : list ToolDef.t) (t : ToolDef.t) (fn : HostFn) :
  ToolDef.execute t = Some fn ->
  (forall t', t' ∈ after -> ToolDef.name t' = ToolDef.name t -> ToolDef.execute t' = None) ->
  Agent.build_executorMap (before ++ t :: after) !! ToolDef.name t = Some fn.
Proof.
  intros X A. unfold Agent.build_executorMap. rewrite foldl_app. cbn [foldl].
  rewrite executorMap_acc_skip by exact A. rewrite X. apply lookup_insert_eq.
Qed.

(** X8.  When several tools of the table share a name, the executor map
    holds the [execute] of the last one that carries one: whatever comes
    before it in the table, a tool's [execute] is the one found under its
    name as soon as no later entry of that name carries an [execute]. *)
Theorem executorMap_last_wins (before after : list ToolDef.t) (t : ToolDef.t) (fn : HostFn) :
  ToolDef.execute t = Some fn ->
  (forall t', t' ∈ after -> ToolDef.name t' = ToolDef.name t -> ToolDef.execute t' = None) ->
  Agent.build_executorMap (before ++ t :: after) !! ToolDef.name t = Some fn /\
  forall callJson parsed args tr,
    JSON_parse callJson = Ok parsed ->
    get_prop parsed "tool" = Ok (JStr (ToolDef.name t)) ->
    get_prop parsed "args" = Ok args ->
    Agent.toolExecutor (Agent.build_executorMap (before ++ t :: after)) callJson tr =
      (match fn args with
       | Ok result => Ok (JSON_stringify result)
       | Throw e => Throw e
       end, tr ++ [ToolExec (ToolDef.name t) args]).
Proof.
  intros X A. pose proof (build_executorMap_last before after t fn X A) as L.
  split; [exact L|].
  intros callJson parsed args tr P T Ar.
  unfold Agent.toolExecutor, bind, lift, Agent.call_host. rewrite P, T, Ar. cbn.
  rewrite L. destruct (fn args); reflexivity.
Qed.

Lemma executorMap_last_wins_witness :
  (Agent.build_executorMap [tool_A; tool_B; tool_A'; tool_A_schema] !! "A")
    ≫= (fun fn => Some (fn JNull)) = Some (Ok (JStr "43")).
Proof.
  assert (A : forall t', t' ∈ [tool_A_schema] -> ToolDef.name t' = ToolDef.name tool_A' ->
                     ToolDef.execute t' = None).
  { intros t' I _. apply list_elem_of_In in I. destruct I as [<-|[]]. reflexivity. }
  destruct (executorMap_last_wins [tool_A; tool_B] [tool_A_schema] tool_A'
              (fun _ => Ok (JStr "43")) eq_refl A) as [L _].
  change (Agent.build_executorMap [tool_A; tool_B; tool_A'; tool_A_schema] !! "A")
    with (Agent.build_executorMap ([tool_A; tool_B] ++ tool_A' :: [tool_A_schema])
            !! ToolDef.name tool_A').
  rewrite L. reflexivity.
Defined.

Lemma unique_name_unique_tool (tools : list ToolDef.t) (t t' : ToolDef.t) :
  NoDup (map ToolDef.name tools) ->
  t ∈ tools -> t' ∈ tools -> ToolDef.name t' = ToolDef.name t -> t' = t.
Proof.
  induction tools as [|x tools IH]; intros N I I'.
  - apply elem_of_nil in I as [].
  - apply NoDup_cons in N as [Nx N].
    apply elem_of_cons in I as [->|I]; apply elem_of_cons in I' as [->|I']; intros E.
    + reflexivity.
    + exfalso. apply Nx. rewrite <- E. apply list_elem_of_In, in_map, list_elem_of_In, I'.
    + exfalso. apply Nx. rewrite E. apply list_elem_of_In, in_map, list_elem_of_In, I.
    + apply IH; assumption.
Qed.

(** X9.  When the names of the table are unique, the executor map is the
    table: under the name of each tool it holds that tool's [execute], and
    nothing when the tool has none. *)
Theorem executorMap_of_unique_names (tools : list ToolDef.t) (t : ToolDef.t) :
  NoDup (map ToolDef.name tools) ->
  t ∈ tools ->
  Agent.build_executorMap tools !! ToolDef.name t = ToolDef.execute t.
Proof.
  intros N I. destruct (ToolDef.execute t) as [fn|] eqn:X.
  - destruct (list_elem_of_split _ _ I) as (before & after & ->).
    apply build_executorMap_last; [exact X|].
    intros t' I' E.
    assert (t' = t).
    { apply (unique_name_unique_tool (before ++ t :: after)); try assumption.
      apply elem_of_app. right. apply list_elem_of_further, I'. }
    subst t'. exfalso.
    rewrite map_app in N. cbn in N. apply NoDup_app in N as (_ & _ & N).
    apply NoDup_cons in N as [Nt _]. apply Nt.
    apply list_elem_of_In, in_map, list_elem_of_In, I'.
  - apply build_executorMap_None. intros t' I' E.
    rewrite (unique_name_unique_tool tools t t' N I I' E). exact X.
Qed.

Lemma executorMap_of_unique_names_witness :
  Agent.build_executorMap [tool_A; tool_B] !! ToolDef.name tool_B = ToolDef.execute tool_B /\
  Agent.build_executorMap [tool_A; tool_B] !! ToolDef.name tool_A = ToolDef.execute tool_A.
Proof.
  assert (N : NoDup (map ToolDef.name [tool_A; tool_B])).
  { apply NoDup_cons. split.
    - intros I. apply list_elem_of_In in I. destruct I as [E|[]]. discriminate E.
    - apply NoDup_cons. split; [intros I; apply elem_of_nil in I as []|apply NoDup_nil_2]. }
  split.
  - apply (executorMap_of_unique_names [tool_A; tool_B] tool_B N).
    apply list_elem_of_further, list_elem_of_here.
  - apply (executorMap_of_unique_names [tool_A; tool_B] tool_A N).
    apply list_elem_of_here.
Defined.

Lemma drive_appends_with (P : BoundaryEvent -> Prop) (e : Engine)
    (toolExecutor : string -> N JsVal) :
  (forall callJson, appends_with P (toolExecutor callJson)) ->
  appends_with P (drive e toolExecutor).
Proof.
  intros Mono. induction e as [r|callJson resume IH]; intros tr.
  - exists []. cbn. split; [symmetry; apply app_nil_r|constructor].
  - cbn [drive]. destruct (Mono callJson tr) as (rest1 & E1 & F1).
    destruct (toolExecutor callJson tr) as [r tr1]. cbn in E1. subst tr1.
    destruct (IH r (tr ++ rest1)) as (rest2 & E2 & F2).
    exists (rest1 ++ rest2). rewrite E2. split; [symmetry; apply app_assoc|].
    apply Forall_app. split; assumption.
Qed.

Lemma toolExecutor_from_table (tools : list ToolDef.t) (callJson : string) :
  appends_with (from_table tools)
    (Agent.toolExecutor (Agent.build_executorMap tools) callJson).
Proof.
  intros tr. unfold Agent.toolExecutor, bind, lift, throw, ret, Agent.call_host.
  assert (Z : exists rest : Trace, tr = tr ++ rest /\ Forall (from_table tools) rest)
    by (exists []; split; [symmetry; apply app_nil_r|constructor]).
  destruct (JSON_parse callJson) as [parsed|e]; [|exact Z].
  destruct (get_prop parsed "tool") as [tool|e]; [|exact Z].
  destruct (get_prop parsed "args") as [args|e]; [|exact Z].
  destruct (Agent.executorMap_get (Agent.build_executorMap tools) tool) as [fn|] eqn:X;
    [|exact Z].
  destruct tool as [| | | |key| |]; try discriminate X. cbn in X.
  exists [ToolExec key args]. split; [destruct (fn args); reflexivity|].
  constructor; [|constructor]. cbn.
  destruct (build_executorMap_Some tools key fn X) as (t & I & Hn & He).
  exists t. rewrite He. eauto.
Qed.

Lemma invoke_boundary {A} (c : BackendCall) (m : N A) (w : World) :
  boundary (snd (invoke c m w)) = snd (m (boundary w)).
Proof. unfold invoke. destruct (m (boundary w)). reflexivity. Qed.

Lemma napi_agentRun_appends_with (P : BoundaryEvent -> Prop) (napi : NativeModule)
    (name : string) (h : JsVal) (tools : list ToolSchema.t) (messages : list Message.t)
    (options : AgentOptions.t) :
  (forall fn args, P (NativeCall Napi fn args)) ->
  appends_with P (Backend.agentRun (createNapiBackend napi) name h tools messages options).
Proof.
  intros Pn tr. cbn [createNapiBackend Backend.agentRun]. unfold bind, native.
  eexists. split; [|constructor; [apply Pn|constructor]].
  destruct (answer napi tr _ _) as [reply|e]; [|reflexivity].
  apply napi_agent_result_pure.
Qed.

Lemma napi_agentRunWithToolExecutor_appends_with (P : BoundaryEvent -> Prop)
    (napi : NativeModule) (name : string) (h : JsVal) (tools : list ToolSchema.t)
    (messages : list Message.t) (options : AgentOptions.t)
    (toolExecutor : string -> N JsVal) :
  (forall fn args, P (NativeCall Napi fn args)) ->
  (forall callJson, appends_with P (toolExecutor callJson)) ->
  appends_with P
    (Backend.agentRunWithToolExecutor (createNapiBackend napi)
       name h tools messages options toolExecutor).
Proof.
  intros Pn Mono tr. cbn [createNapiBackend Backend.agentRunWithToolExecutor]. unfold bind.
  set (args := napi_agent_args name h tools messages options).
  set (tr1 := tr ++ [NativeCall Napi "agentRunWithToolExecutor" args]).
  destruct (drive_appends_with P (run_engine napi tr1 args) toolExecutor Mono tr1)
    as (rest & E & F).
  exists (NativeCall Napi "agentRunWithToolExecutor" args :: rest).
  split; [|constructor; [apply Pn|exact F]].
  destruct (drive _ _ tr1) as [[reply|e] tr2]; cbn [snd] in E; subst tr2.
  - rewrite napi_agent_result_pure. unfold tr1. rewrite <- app_assoc. reflexivity.
  - cbn [snd]. unfold tr1. rewrite <- app_assoc. reflexivity.
Qed.

(** X10.  On the NAPI backend, whatever the engine does during a run (any
    number of envelopes, well formed or not, naming any tool), the run
    only adds to the boundary trace, and every host execution it adds is
    that of a tool of the agent's table that carries an [execute]. *)
Theorem run_executes_only_table_tools (napi : NativeModule) (agent : Agent.t)
    (messages : list Message.t) (w : World) :
  _backend w = Some (createNapiBackend napi) ->
  exists rest,
    boundary (snd (Agent.run agent messages w)) = boundary w ++ rest /\
    Forall (from_table (default [] (AgentOptions.tools (Agent.options agent)))) rest.
Proof.
  intros S. unfold Agent.run, bind. rewrite (getBackend_memo w _ S). cbv beta iota.
  set (tools := default [] (AgentOptions.tools (Agent.options agent))).
  assert (Z : exists rest : Trace,
             boundary w = boundary w ++ rest /\ Forall (from_table tools) rest)
    by (exists []; split; [symmetry; apply app_nil_r|constructor]).
  assert (Pn : forall fn args, from_table tools (NativeCall Napi fn args))
    by (intros; exact I).
  destruct (existsb Agent.has_execute tools);
    destruct (Provider.getHandle (Agent.provider agent) w) as [[h|e] w1] eqn:G;
    assert (w1 = w) by (unfold_host; repeat case_match; simplify_eq; reflexivity);
    subst w1; try exact Z; cbv beta iota; rewrite invoke_boundary.
  - apply napi_agentRunWithToolExecutor_appends_with; [exact Pn|].
    apply toolExecutor_from_table.
  - apply napi_agentRun_appends_with. exact Pn.
Qed.

Lemma run_executes_only_table_tools_witness :
  let w := exec [OpCreateProvider openai "gpt-4o" key_only] (initial env_asking_B) in
  let agent := createAgent "ag" 0 (Some (options_with [tool_A; tool_B])) in
  exists rest,
    boundary (snd (Agent.run agent hello w)) = boundary w ++ rest /\
    Forall (from_table [tool_A; tool_B]) rest.
Proof.
  intros w agent.
  apply (run_executes_only_table_tools asking_B_napi agent hello w). reflexivity.
Defined.

(** ** The earlier [run] *)

(** X11.  The earlier [Agent.run] and the present one are the same function
    on every agent none of whose tools carries an [execute]; and on the
    WASM backend they settle alike and send the same message for every
    agent, since that backend ignores the executor. *)
Theorem legacy_run_agrees (agent : Agent.t) (messages : list Message.t) (w : World) :
  ((forall t, t ∈ default [] (AgentOptions.tools (Agent.options agent)) ->
              ToolDef.execute t = None) ->
   LegacyAgent.run agent messages w = Agent.run agent messages w) /\
  (forall wasm,
      _backend w = Some (createWasmBackend wasm) ->
      fst (LegacyAgent.run agent messages w) = fst (Agent.run agent messages w) /\
      boundary (snd (LegacyAgent.run agent messages w)) =
        boundary (snd (Agent.run agent messages w))).
Proof.
  split.
  - intros A. apply hasExecuteFns_false in A.
    unfold LegacyAgent.run, Agent.run, bind.
    destruct (getBackend w) as [[b|e] w0]; [|reflexivity].
    cbv beta iota zeta. rewrite A. reflexivity.
  - intros wasm S. unfold LegacyAgent.run, Agent.run, bind.
    rewrite (getBackend_memo w _ S). cbv beta iota zeta.
    destruct (existsb Agent.has_execute _);
      destruct (Provider.getHandle (Agent.provider agent) w) as [[h|e] w1];
      try (split; reflexivity);
      rewrite !invoke_boundary; unfold invoke;
      cbn [createWasmBackend Backend.agentRunWithToolExecutor Backend.agentRun];
      destruct (wasm_agentRun wasm _ _ _ _ _ _); split; reflexivity.
Qed.

Lemma legacy_run_agrees_witness :
  let w := exec [OpCreateProvider openai "gpt-4o" key_only] (initial env_napi) in
  let agent := createAgent "ag" 0 (Some (options_with [tool_B])) in
  LegacyAgent.run agent hello w = Agent.run agent hello w.
Proof.
  intros w agent. apply (proj1 (legacy_run_agrees agent hello w)).
  intros t I. apply list_elem_of_In in I. destruct I as [<-|[]]. reflexivity.
Defined.

(** ** More on marshalling *)

(** X12.  On the NAPI backend the result of [agentRun] is rebuilt from the
    native reply: it holds [text] and [steps] as replied, the two token
    counts moved under [usage], and [structuredOutput], which is
    [undefined] whenever the reply has none or has [null]; nothing else of
    the reply is passed on.  A reply that is [null] or [undefined] makes
    the call fail with a TypeError. *)
Theorem napi_agentRun_result_shape (napi : NativeModule) (name : string) (h : JsVal)
    (tools : list ToolSchema.t) (messages : list Message.t) (options : AgentOptions.t)
    (tr : Trace) (reply : JsVal) :
  answer napi tr "agentRun" (napi_agent_args name h tools messages options) = Ok reply ->
  let outcome :=
    fst (Backend.agentRun (createNapiBackend napi) name h tools messages options tr) in
  (is_nullish reply = true -> outcome = Throw TypeError) /\
  (is_nullish reply = false ->
   exists text steps inputTokens outputTokens structuredOutput replied,
     outcome =
       Ok (JObj [("text", text); ("steps", steps);
                 ("usage", JObj [("inputTokens", inputTokens);
                                 ("outputTokens", outputTokens)]);
                 ("structuredOutput", structuredOutput)]) /\
     get_prop reply "text" = Ok text /\
     get_prop reply "steps" = Ok steps /\
     get_prop reply "inputTokens" = Ok inputTokens /\
     get_prop reply "outputTokens" = Ok outputTokens /\
     get_prop reply "structuredOutput" = Ok replied /\
     structuredOutput = (if is_nullish replied then JUndefined else replied)).
Proof.
  intros E outcome. subst outcome.
  cbn [createNapiBackend Backend.agentRun]. unfold bind, native. rewrite E.
  unfold napi_agent_result, bind, lift, ret.
  split; intros Nl.
  - destruct reply; try discriminate Nl; reflexivity.
  - destruct reply; try discriminate Nl; cbn;
      repeat eexists; reflexivity.
Qed.

Lemma napi_agentRun_result_shape_witness :
  fst (Backend.agentRun (createNapiBackend verbose_napi) "ag" (JNum "1") [] hello
         AgentOptions.empty []) =
    Ok (JObj [("text", JStr "done"); ("steps", JNum "1");
              ("usage", JObj [("inputTokens", JNum "3"); ("outputTokens", JNum "5")]);
              ("structuredOutput", JUndefined)]).
Proof.
  destruct (proj2 (napi_agentRun_result_shape verbose_napi "ag" (JNum "1") [] hello
                     AgentOptions.empty [] verbose_reply eq_refl) eq_refl)
    as (text & steps & it & ot & so & replied & O & T & St & It & Ot & R & So).
  rewrite O. cbn in T, St, It, Ot, R.
  injection T as <-. injection St as <-. injection It as <-. injection Ot as <-.
  injection R as <-. rewrite So. reflexivity.
Defined.

Lemma lookup_replace_prop (k k0 : string) (v : JsVal) (props : list (string * JsVal)) :
  lookup_prop k0 (replace_prop k v props) =
  if String.eqb k0 k && existsb (fun kv => String.eqb (fst kv) k) props then v
  else lookup_prop k0 props.
Proof.
  unfold lookup_prop. induction props as [|[k' v'] props IH]; cbn.
  - rewrite andb_false_r. reflexivity.
  - destruct (String.eqb k' k) eqn:E; cbn.
    + apply String.eqb_eq in E. subst k'. rewrite andb_true_r, (String.eqb_sym k k0).
      destruct (String.eqb k0 k); reflexivity.
    + destruct (String.eqb k' k0) eqn:E0; [|exact IH].
      apply String.eqb_eq in E0. subst k0. rewrite E. reflexivity.
Qed.

Lemma lookup_insert_index (i : Z) (k k0 : string) (v : JsVal) (props : list (string * JsVal)) :
  existsb (fun kv => String.eqb (fst kv) k) props = false ->
  lookup_prop k0 (insert_index i k v props) =
  if String.eqb k0 k then v else lookup_prop k0 props.
Proof.
  unfold lookup_prop. induction props as [|[k' v'] props IH]; cbn; intros Fresh.
  - rewrite (String.eqb_sym k k0). destruct (String.eqb k0 k); reflexivity.
  - apply orb_false_iff in Fresh as [Ne Fresh].
    assert (Here : forall rest,
               match find (fun kv => String.eqb (fst kv) k0) ((k, v) :: (k', v') :: rest) with
               | Some kv => snd kv
               | None => JUndefined
               end =
               if String.eqb k0 k then v
               else match (if String.eqb k' k0 then Some (k', v')
                           else find (fun kv => String.eqb (fst kv) k0) rest) with
                    | Some kv => snd kv
                    | None => JUndefined
                    end).
    { intros rest. cbn. rewrite (String.eqb_sym k k0).
      destruct (String.eqb k0 k); reflexivity. }
    destruct (array_index k') as [j|]; [destruct (Z.ltb j i)|]; try apply Here.
    cbn. destruct (String.eqb k' k0) eqn:E0; [|apply IH, Fresh].
    apply String.eqb_eq in E0. subst k0. rewrite Ne. reflexivity.
Qed.

Lemma lookup_append_prop (k k0 : string) (v : JsVal) (props : list (string * JsVal)) :
  existsb (fun kv => String.eqb (fst kv) k) props = false ->
  lookup_prop k0 (props ++ [(k, v)]) =
  if String.eqb k0 k then v else lookup_prop k0 props.
Proof.
  unfold lookup_prop. induction props as [|[k' v'] props IH]; cbn; intros Fresh.
  - rewrite (String.eqb_sym k k0). destruct (String.eqb k0 k); reflexivity.
  - apply orb_false_iff in Fresh as [Ne Fresh].
    destruct (String.eqb k' k0) eqn:E0; [|apply IH, Fresh].
    apply String.eqb_eq in E0. subst k0. rewrite Ne. reflexivity.
Qed.

Lemma lookup_set_prop (k k0 : string) (v : JsVal) (props : list (string * JsVal)) :
  lookup_prop k0 (set_prop k v props) = if String.eqb k0 k then v else lookup_prop k0 props.
Proof.
  unfold set_prop. destruct (existsb _ props) eqn:Ex.
  - rewrite lookup_replace_prop, Ex, andb_true_r. reflexivity.
  - destruct (array_index k).
    + apply lookup_insert_index, Ex.
    + apply lookup_append_prop, Ex.
Qed.

Lemma lookup_set_prop_eq (k : string) (v : JsVal) (props : list (string * JsVal)) :
  lookup_prop k (set_prop k v props) = v.
Proof. rewrite lookup_set_prop, String.eqb_refl. reflexivity. Qed.

Lemma lookup_set_prop_ne (k k0 : string) (v : JsVal) (props : list (string * JsVal)) :
  k0 <> k -> lookup_prop k0 (set_prop k v props) = lookup_prop k0 props.
Proof.
  intros Ne. rewrite lookup_set_prop. apply String.eqb_neq in Ne. rewrite Ne. reflexivity.
Qed.

(** X13.  On the WASM backend [generateWithTools] never sends the tools: it
    makes the very call [generate] makes and fails when [generate] fails.
    When the reply parses, the result is the reply with [toolCalls] set to
    the empty array, whatever the reply held under that name; the other
    properties of a replied object are kept. *)
Theorem wasm_generateWithTools_without_tools (wasm : NativeModule) (handle : JsVal)
    (messages : list Message.t) (tools : list ToolSchema.t)
    (temperature maxTokens : option number) (tr : Trace) :
  let with_tools :=
    Backend.generateWithTools (createWasmBackend wasm)
      handle messages tools temperature maxTokens tr in
  let plain :=
    Backend.generate (createWasmBackend wasm) handle messages temperature maxTokens tr in
  snd with_tools = snd plain /\
  (forall e, fst plain = Throw e -> fst with_tools = Throw e) /\
  (forall parsed,
      fst plain = Ok parsed ->
      exists result,
        fst with_tools = Ok result /\
        get_prop result "toolCalls" = Ok (JArr []) /\
        forall props k,
          parsed = JObj props -> k <> "toolCalls" ->
          get_prop result k = get_prop parsed k).
Proof.
  cbv zeta. cbn [createWasmBackend Backend.generateWithTools Backend.generate].
  unfold bind, native, lift, ret.
  destruct (answer wasm tr _ _) as [json|e].
  - destruct (JSON_parse (ToString json)) as [parsed|e].
    + split; [reflexivity|]. split; [discriminate|].
      intros parsed' [= <-]. eexists. split; [reflexivity|]. split.
      * cbn. rewrite lookup_set_prop_eq. reflexivity.
      * intros props k -> Ne. cbn. rewrite lookup_set_prop_ne by exact Ne. reflexivity.
    + split; [reflexivity|]. split; [intros e' [= <-]; reflexivity|discriminate].
  - split; [reflexivity|]. split; [intros e' [= <-]; reflexivity|discriminate].
Qed.

Lemma wasm_generateWithTools_without_tools_witness :
  exists result,
    fst (Backend.generateWithTools (createWasmBackend calling_wasm) (JNum "1") hello
           [Agent.schema_of tool_A] None None []) = Ok result /\
    get_prop result "toolCalls" = Ok (JArr []) /\
    get_prop result "text" = Ok (JStr "done").
Proof.
  destruct (proj2 (proj2 (wasm_generateWithTools_without_tools calling_wasm (JNum "1")
                            hello [Agent.schema_of tool_A] None None []))
              (JObj [("text", JStr "done");
                     ("toolCalls", JArr [JObj [("name", JStr "A")]])]) eq_refl)
    as (result & R & T & K).
  exists result. split; [exact R|]. split; [exact T|].
  rewrite (K _ "text" eq_refl) by discriminate. reflexivity.
Defined.

(** X14.  [createProvider] forwards the provider options in full on the
    NAPI backend (the object it passes determines all five options) and
    only in part on the WASM backend: there the call and its outcome
    depend on the options through [apiKey] and [baseUrl] alone, so
    [timeoutMs], [maxRetries] and [organization] never reach the module. *)
Theorem provider_options_forwarding :
  (forall o o',
      napi_provider_options o = napi_provider_options o' -> o = o') /\
  (forall wasm type model o o' tr,
      ProviderOptions.apiKey o = ProviderOptions.apiKey o' ->
      ProviderOptions.baseUrl o = ProviderOptions.baseUrl o' ->
      Backend.createProvider (createWasmBackend wasm) type model o tr =
      Backend.createProvider (createWasmBackend wasm) type model o' tr).
Proof.
  split.
  - intros [k [u|] [t|] [r|] [g|]] [k' [u'|] [t'|] [r'|] [g'|]] E;
      cbn in E; try discriminate E; injection E; intros; subst; reflexivity.
  - intros wasm type model o o' tr Ek Eu.
    cbn [createWasmBackend Backend.createProvider]. rewrite Ek, Eu. reflexivity.
Qed.

Lemma provider_options_forwarding_witness :
  Backend.createProvider (createWasmBackend sample_wasm) openai "gpt-4o" all_options [] =
  Backend.createProvider (createWasmBackend sample_wasm) openai "gpt-4o" key_and_url [].
Proof.
  apply (proj2 provider_options_forwarding sample_wasm openai "gpt-4o"
           all_options key_and_url []); reflexivity.
Defined.

(** ** What a run leaves alone *)

(** X15.  Whatever backend is active and however the run ends, [run]
    creates no provider, destroys none and changes no handle; it records
    at most one call on the backend, and that call is an [agentRun] or an
    [agentRunWithToolExecutor] for this agent's name and messages. *)
Theorem run_leaves_providers_alone (agent : Agent.t) (messages : list Message.t) (w : World) :
  let w' := snd (Agent.run agent messages w) in
  heap w' = heap w /\
  (calls w' = calls w \/
   exists h tools options,
     calls w' = calls w ++ [AgentRun (Agent.name agent) h tools messages options] \/
     calls w' = calls w ++
                  [AgentRunWithToolExecutor (Agent.name agent) h tools messages options]).
Proof.
  cbv zeta. unfold Agent.run, bind.
  destruct (getBackend w) as [[b|e] w0] eqn:G;
    apply getBackend_frame in G as (Hh & _ & Hc & _); [|cbn; auto].
  cbv beta iota.
  destruct (existsb Agent.has_execute _);
    destruct (Provider.getHandle (Agent.provider agent) w0) as [[h|e] w1] eqn:Gh;
    assert (w1 = w0) by (unfold_host; repeat case_match; simplify_eq; reflexivity);
    subst w1; try (cbn; auto); cbv beta iota; unfold invoke.
  - destruct (Backend.agentRunWithToolExecutor _ _ _ _ _ _ _ _) as [r tr]. cbn.
    rewrite Hh, Hc. split; [reflexivity|]. right. eauto 10.
  - destruct (Backend.agentRun _ _ _ _ _ _ _) as [r tr]. cbn.
    rewrite Hh, Hc. split; [reflexivity|]. right. eauto 10.
Qed.
